(** * commands-audio: the orchestration of audio-commit, audio-review and
      select-audio, embedded as a trace-producing error monad.

    Sources embedded here:
    - [src/commands/audio-commit.ts]  (module [AudioCommit]),
    - [src/commands/audio-review.ts]  (module [AudioReview]),
    - [src/commands/select-audio.ts]  (module [SelectAudio]).

    Conventions of the embedding.
    - A JavaScript string is a [string]: one [ascii] per UTF-16 code unit,
      so the model covers strings whose code units are below 256.
    - An optional field [f?: T] is an [option T]; [None] is [undefined].
    - A thrown value is an [Error] object, observed through [name],
      [message] and the two [instanceof] tests the commands perform.
    - Collaborators ([processAudio], [transcribeAudio], [commit], [review],
      the storage, the device selector) are oracles of a [World]; each oracle
      sees the trace of the calls made before it, so a collaborator may
      answer differently from one call to the next.
    - Every collaborator call is recorded in the trace, in program order.
    - Loggers and the adapter constructors ([createStorageAdapter],
      [createLoggerAdapter]) are silent and total, and are not recorded.
    - The countdown returned by [createAudioRecordingCountdown] is an
      asynchronous handle: creating, starting and stopping it return
      normally. *)

From Stdlib Require Import ZArith Ascii String List.
From stdpp Require Import base gmap strings list sorting pretty.

Local Open Scope Z_scope.

(** ** JavaScript strings *)

Module Js.

(** [WhiteSpace] and [LineTerminator] code units below 256
    (TAB, LF, VT, FF, CR, SP, NBSP): what [String.prototype.trim] strips. *)
Definition isWhiteSpace (c : ascii) : bool :=
  let n := N_of_ascii c in
  ((9 <=? n) && (n <=? 13) || (n =? 32) || (n =? 160))%N.

Fixpoint trimStart (s : string) : string :=
  match s with
  | EmptyString => EmptyString
  | String c r => if isWhiteSpace c then trimStart r else s
  end.

Fixpoint trimEnd (s : string) : string :=
  match s with
  | EmptyString => EmptyString
  | String c r =>
      match trimEnd r with
      | EmptyString => if isWhiteSpace c then EmptyString else String c EmptyString
      | r' => String c r'
      end
  end.

(** [s.trim()] *)
Definition trim (s : string) : string := trimEnd (trimStart s).

(** [c] lower-cased: A-Z, and the Latin-1 capitals U+00C0..U+00DE except
    the multiplication sign U+00D7. *)
Definition lowerChar (c : ascii) : ascii :=
  let n := N_of_ascii c in
  if ((65 <=? n) && (n <=? 90)
      || (192 <=? n) && (n <=? 222) && negb (n =? 215))%N
  then ascii_of_N (n + 32) else c.

(** [s.toLowerCase()] *)
Fixpoint toLowerCase (s : string) : string :=
  match s with
  | EmptyString => EmptyString
  | String c r => String (lowerChar c) (toLowerCase r)
  end.

(** [s.startsWith(p)] *)
Definition startsWith (p s : string) : bool := String.prefix p s.

(** [s.includes(needle)] *)
Fixpoint includes (needle s : string) : bool :=
  String.prefix needle s ||
  match s with
  | EmptyString => false
  | String _ r => includes needle r
  end.

(** Truthiness of a string: every string but the empty one. *)
Definition nonEmpty (s : string) : bool := negb (String.eqb s "").

(** Truthiness of an optional string. *)
Definition truthy (o : option string) : bool :=
  match o with
  | Some s => nonEmpty s
  | None => false
  end.

(** [o || d] for an optional string [o] and a string [d]. *)
Definition orElse (o : option string) (d : string) : string :=
  match o with
  | Some s => if nonEmpty s then s else d
  | None => d
  end.

(** [b || false] for an optional boolean. *)
Definition orFalse (o : option bool) : bool :=
  match o with
  | Some b => b
  | None => false
  end.

(** [n && n > 0] for an optional (integer) number, as a truth value. *)
Definition isPositive (o : option Z) : bool :=
  match o with
  | Some n => negb (n =? 0) && (0 <? n)
  | None => false
  end.

(** [arr.includes(x)] on an array of strings. *)
Definition arrayIncludes (arr : list string) (x : string) : bool :=
  existsb (String.eqb x) arr.

(** [arr.join(sep)] *)
Definition join (sep : string) (arr : list string) : string :=
  String.concat sep arr.

(** [arr.sort()] on an array of strings.  The default comparator orders
    strings code unit by code unit, a proper prefix first: [String.le].  The
    order is total and antisymmetric, so the sorted array does not depend on
    the algorithm. *)
Definition sort (arr : list string) : list string := merge_sort String.le arr.

(** The line feed, written [\n] in the sources. *)
Definition nl : string := String "010"%char EmptyString.

(** [`${n}`] for a non-negative integer. *)
Definition ofNat (n : nat) : string := pretty n.

End Js.

(** ** Thrown values *)

(** What the commands observe of a thrown [Error]: its [name], its
    [message], and whether it is an instance of the two cancellation classes
    of the shared package. *)
Record JsError := {
  err_name : string;
  err_message : string;
  err_isUserCancellationError : bool;   (* error instanceof UserCancellationError *)
  err_isCancellationError : bool        (* error instanceof CancellationError *)
}.

(** [new Error(msg)] *)
Definition new_Error (msg : string) : JsError :=
  {| err_name := "Error"; err_message := msg;
     err_isUserCancellationError := false; err_isCancellationError := false |}.

(** The [TypeError] the engine raises on a property read of [undefined] or
    a call of a non-function; its text is the engine's. *)
Definition new_TypeError (msg : string) : JsError :=
  {| err_name := "TypeError"; err_message := msg;
     err_isUserCancellationError := false; err_isCancellationError := false |}.

(** [Error.prototype.toString] *)
Definition err_toString (e : JsError) : string :=
  if String.eqb (err_name e) "" then err_message e
  else if String.eqb (err_message e) "" then err_name e
  else err_name e +:+ ": " +:+ err_message e.

Inductive Outcome (A : Type) : Type :=
| Returns (a : A)
| Throws (e : JsError).
Arguments Returns {A} a.
Arguments Throws {A} e.

(** ** The invocation config *)

(** A value of a field the commands only pass along. *)
Inductive JsValue : Type :=
| JsUndefined
| JsNull
| JsBool (b : bool)
| JsNumber (z : Z)
| JsString (s : string).

(** [runConfig.audioCommit] *)
Record AudioCommitConfig := {
  ac_file : option string;
  ac_maxRecordingTime : option Z;
  ac_rest : gmap string JsValue
}.

(** [runConfig.audioReview] *)
Record AudioReviewConfig := {
  ar_file : option string;
  ar_directory : option string;
  ar_maxRecordingTime : option Z;
  ar_includeCommitHistory : option bool;
  ar_includeRecentDiffs : option bool;
  ar_includeReleaseNotes : option bool;
  ar_includeGithubIssues : option bool;
  ar_commitHistoryLimit : option Z;
  ar_diffHistoryLimit : option Z;
  ar_releaseNotesLimit : option Z;
  ar_githubIssuesLimit : option Z;
  ar_sendit : option bool;
  ar_context : option string;
  ar_rest : gmap string JsValue
}.

(** [runConfig.commit]: the designated field and every other property. *)
Record CommitConfig := {
  cm_direction : option string;
  cm_rest : gmap string JsValue
}.

(** [runConfig.review]: the mapped fields, the designated field and every
    other property. *)
Record ReviewConfig := {
  rv_includeCommitHistory : option bool;
  rv_includeRecentDiffs : option bool;
  rv_includeReleaseNotes : option bool;
  rv_includeGithubIssues : option bool;
  rv_commitHistoryLimit : option Z;
  rv_diffHistoryLimit : option Z;
  rv_releaseNotesLimit : option Z;
  rv_githubIssuesLimit : option Z;
  rv_sendit : option bool;
  rv_context : option string;
  rv_note : option string;
  rv_rest : gmap string JsValue
}.

(** [Config]: the fields the commands read, and every other top-level
    property in [rest]. *)
Record Config := {
  dryRun : option bool;
  debug : option bool;
  outputDirectory : option string;
  audioCommit : option AudioCommitConfig;
  audioReview : option AudioReviewConfig;
  commit : option CommitConfig;
  review : option ReviewConfig;
  rest : gmap string JsValue
}.

(** ** Collaborator values *)

(** The argument of [processAudio]. *)
Record ProcessAudioOptions := {
  pa_file : option string;
  pa_maxRecordingTime : option Z;
  pa_outputDirectory : string;
  pa_debug : option bool
}.

(** What [processAudio] resolves to, as far as the commands look:
    [undefined]/[null], or an object with a [cancelled] truth value and an
    optional [audioFilePath]. *)
Inductive AudioResult : Type :=
| AudioNullish
| AudioObject (cancelled : bool) (audioFilePath : option string).

(** The [text] property of a transcription object: absent, a string, or a
    value that is not a string and has no [trim] method (a number, a
    boolean, a plain object). *)
Inductive TextProperty : Type :=
| TextMissing
| TextString (s : string)
| TextOther.

(** What [transcribeAudio] resolves to: [undefined]/[null], a primitive
    (where [.text] reads [undefined]), or an object. *)
Inductive Transcription : Type :=
| TranscriptionNullish
| TranscriptionPrimitive
| TranscriptionObject (text : TextProperty).

(** The options handed to [transcribeAudio]: the model, the debug flag, the
    directory of the storage adapter, the directory [onArchive] archives to. *)
Record TranscribeOptions := {
  tr_model : string;
  tr_debug : option bool;
  tr_storageDirectory : string;
  tr_archiveDirectory : string
}.

(** ** Traces *)

Inductive Event : Type :=
| EvCountdownCreate (maxRecordingTime : Z)
| EvCountdownStart
| EvCountdownStop
| EvProcessAudio (options : ProcessAudioOptions)
| EvTranscribeAudio (audioFilePath : string) (options : TranscribeOptions)
| EvCommit (config : Config)
| EvReview (config : Config)
| EvIsDirectoryReadable (directory : string)
| EvListFiles (directory : string)
| EvHomedir
| EvSelectAndConfigureAudioDevice (preferencesDir : string) (debug : option bool).

Definition Trace := list Event.

(** The collaborators, the [path] module and the error classes of the shared
    package: everything the commands import. *)
Record World := {
  processAudio : Trace -> ProcessAudioOptions -> Outcome AudioResult;
  transcribeAudio : Trace -> string -> TranscribeOptions -> Outcome Transcription;
  executeCommit : Trace -> Config -> Outcome string;
  executeReview : Trace -> Config -> Outcome string;
  getTimestampedAudioFilename : Trace -> string;
  isDirectoryReadable : Trace -> string -> Outcome bool;
  listFiles : Trace -> string -> Outcome (list string);
  homedir : Trace -> Outcome string;
  selectAndConfigureAudioDevice : Trace -> string -> option bool -> Outcome string;
  path_join : list string -> string;
  path_basename : string -> string;
  path_extname : string -> string;
  (* the [name] the two classes give their instances, and whether
     [UserCancellationError] extends [CancellationError] *)
  UserCancellationError_name : string;
  UserCancellationError_extends_CancellationError : bool;
  CancellationError_name : string;
  (* the text of the engine's TypeErrors *)
  typeErrorMessage : string
}.

(** [new UserCancellationError(msg)] *)
Definition new_UserCancellationError (w : World) (msg : string) : JsError :=
  {| err_name := UserCancellationError_name w; err_message := msg;
     err_isUserCancellationError := true;
     err_isCancellationError := UserCancellationError_extends_CancellationError w |}.

(** [new CancellationError(msg)] *)
Definition new_CancellationError (w : World) (msg : string) : JsError :=
  {| err_name := CancellationError_name w; err_message := msg;
     err_isUserCancellationError := false; err_isCancellationError := true |}.

(** ** The monad of the commands: a trace and a possible throw *)

Definition M (A : Type) : Type := Trace -> Outcome A * Trace.

Definition ret {A} (a : A) : M A := fun t => (Returns a, t).

Definition throw {A} (e : JsError) : M A := fun t => (Throws e, t).

Definition bind {A B} (m : M A) (k : A -> M B) : M B :=
  fun t =>
    match m t with
    | (Returns a, t') => k a t'
    | (Throws e, t') => (Throws e, t')
    end.

(** [try { m } catch (error) { h error }] *)
Definition try_catch {A} (m : M A) (h : JsError -> M A) : M A :=
  fun t =>
    match m t with
    | (Returns a, t') => (Returns a, t')
    | (Throws e, t') => h e t'
    end.

(** [try { m } finally { f }] *)
Definition try_finally {A} (m : M A) (f : M unit) : M A :=
  fun t =>
    match m t with
    | (r, t') =>
        match f t' with
        | (Returns _, t'') => (r, t'')
        | (Throws e, t'') => (Throws e, t'')
        end
    end.

(** A collaborator call: the oracle answers on the trace so far, and the
    call is appended to the trace. *)
Definition call {A} (ev : Event) (oracle : Trace -> Outcome A) : M A :=
  fun t => (oracle t, t ++ [ev]).

(** A call that returns nothing and cannot fail. *)
Definition emit (ev : Event) : M unit := fun t => (Returns tt, t ++ [ev]).

Declare Scope cmd_scope.
Delimit Scope cmd_scope with cmd.
Notation "'let!' x ':=' m 'in' k" := (bind m (fun x => k))
  (at level 10, x name, m at level 100, k at level 200) : cmd_scope.
Notation "m '>>' k" := (bind m (fun _ => k))
  (at level 100, k at level 200, right associativity) : cmd_scope.
Local Open Scope cmd_scope.

(** [{ ...runConfig, commit: c }] *)
Definition with_commit (runConfig : Config) (c : CommitConfig) : Config :=
  {| dryRun := dryRun runConfig;
     debug := debug runConfig;
     outputDirectory := outputDirectory runConfig;
     audioCommit := audioCommit runConfig;
     audioReview := audioReview runConfig;
     commit := Some c;
     review := review runConfig;
     rest := rest runConfig |}.

(** [{ ...runConfig, review: r }] *)
Definition with_review (runConfig : Config) (r : ReviewConfig) : Config :=
  {| dryRun := dryRun runConfig;
     debug := debug runConfig;
     outputDirectory := outputDirectory runConfig;
     audioCommit := audioCommit runConfig;
     audioReview := audioReview runConfig;
     commit := commit runConfig;
     review := Some r;
     rest := rest runConfig |}.

(** [getTimestampedAudioFilename()]: a read of the clock, not recorded. *)
Definition timestampedAudioFilename (w : World) : M string :=
  fun t => (Returns (getTimestampedAudioFilename w t), t).

(** The options both commands hand to [transcribeAudio]. *)
Definition transcribeOptions (w : World) (runConfig : Config) : TranscribeOptions :=
  let outputDir := Js.orElse (outputDirectory runConfig) "output" in
  {| tr_model := "whisper-1";
     tr_debug := debug runConfig;
     tr_storageDirectory := outputDir;
     tr_archiveDirectory := path_join w [outputDir; "kodrdriv"] |}.

(** ** audio-commit *)

Module AudioCommit.

Definition dryRunPreview : string :=
  "DRY RUN: Would process audio, transcribe it, and generate commit message with audio context".

(** The block handed to [commit]:
    [{ ...runConfig.commit, direction: audioContext.trim() || runConfig.commit?.direction || '' }] *)
Definition commitBlock (runConfig : Config) (audioContext : string) : CommitConfig :=
  {| cm_direction :=
       Some (Js.orElse (Some (Js.trim audioContext))
               (Js.orElse (commit runConfig ≫= cm_direction) ""));
     cm_rest := from_option cm_rest ∅ (commit runConfig) |}.

(** The [catch] of the audio phase. *)
Definition onAudioError (w : World) (error : JsError) : M string :=
  if err_isUserCancellationError error then throw error
  else if String.eqb (err_name error) "CancellationError" || err_isCancellationError error
  then throw (new_UserCancellationError w (err_message error))
  else ret "".

(** The [try] block: recording, path resolution, transcription. *)
Definition audioPhase (w : World) (runConfig : Config) : M string :=
  let file := audioCommit runConfig ≫= ac_file in
  let maxRecordingTime := audioCommit runConfig ≫= ac_maxRecordingTime in
  let isRecording := negb (Js.truthy file) in
  let! countdownTimer :=
    (if isRecording && Js.isPositive maxRecordingTime
     then emit (EvCountdownCreate (default 0 maxRecordingTime)) >>
          emit EvCountdownStart >> ret true
     else ret false) in
  let options :=
    {| pa_file := file;
       pa_maxRecordingTime := maxRecordingTime;
       pa_outputDirectory := Js.orElse (outputDirectory runConfig) "output";
       pa_debug := debug runConfig |} in
  let! audioResult :=
    try_finally
      (call (EvProcessAudio options) (fun t => processAudio w t options))
      (if countdownTimer then emit EvCountdownStop else ret tt) in
  match audioResult with
  | AudioNullish => throw (new_TypeError (typeErrorMessage w))
  | AudioObject cancelled reported =>
      if cancelled
      then throw (new_UserCancellationError w "Audio commit cancelled by user")
      else
        let! audioFilePath :=
          (if Js.truthy file then ret (default "" file)
           else if Js.truthy reported then ret (default "" reported)
           else
             let outputDir := Js.orElse (outputDirectory runConfig) "output" in
             let! name := timestampedAudioFilename w in
             ret (path_join w [outputDir; name])) in
        let options := transcribeOptions w runConfig in
        let! transcription :=
          call (EvTranscribeAudio audioFilePath options)
               (fun t => transcribeAudio w t audioFilePath options) in
        (* audioContext = transcription.text *)
        let! text :=
          match transcription with
          | TranscriptionNullish => throw (new_TypeError (typeErrorMessage w))
          | TranscriptionPrimitive => ret TextMissing
          | TranscriptionObject text => ret text
          end in
        (* audioContext.trim() *)
        match text with
        | TextString audioContext =>
            if negb (Js.nonEmpty (Js.trim audioContext)) then ret "" else ret audioContext
        | _ => throw (new_TypeError (typeErrorMessage w))
        end
  end.

Definition executeInternal (w : World) (runConfig : Config) : M string :=
  let isDryRun := Js.orFalse (dryRun runConfig) in
  if isDryRun then ret dryRunPreview
  else
    let! audioContext := try_catch (audioPhase w runConfig) (onAudioError w) in
    let delegated := with_commit runConfig (commitBlock runConfig audioContext) in
    call (EvCommit delegated) (fun t => executeCommit w t delegated).

Definition execute (w : World) (runConfig : Config) : M string :=
  try_catch (executeInternal w runConfig) (fun error => throw error).

End AudioCommit.

(** ** audio-review *)

Module AudioReview.

Definition AUDIO_EXTENSIONS : list string :=
  [".wav"; ".mp3"; ".m4a"; ".aac"; ".flac"; ".ogg"; ".wma"].

Definition batchDryRunPreview : string :=
  "DRY RUN: Directory batch processing would be performed".

Definition dryRunPreview : string :=
  "DRY RUN: Would process audio, transcribe it, and perform review analysis with audio context".

Definition noFilesResult : string := "No audio files found to process".

Definition invalidTranscription : string :=
  "Invalid transcription result: missing or invalid text property".

(** The filter of [discoverAudioFiles]. *)
Definition isAudioFile (w : World) (file : string) : bool :=
  Js.arrayIncludes AUDIO_EXTENSIONS (Js.toLowerCase (path_extname w file)).

Definition discoverAudioFiles (w : World) (directory : string) : M (list string) :=
  try_catch
    (let! readable :=
       call (EvIsDirectoryReadable directory) (fun t => isDirectoryReadable w t directory) in
     if negb readable
     then throw (new_Error ("Directory not readable: " +:+ directory))
     else
       let! allFiles := call (EvListFiles directory) (fun t => listFiles w t directory) in
       let audioFiles :=
         Js.sort
           (map (fun file => path_join w [directory; file])
              (List.filter (isAudioFile w) allFiles)) in
       ret audioFiles)
    (fun error => throw error).

(** The shape check on a transcription:
    [!transcription || typeof transcription !== 'object' ||
     typeof transcription.text !== 'string'] throws. *)
Definition validText (transcription : Transcription) : M string :=
  match transcription with
  | TranscriptionObject (TextString text) => ret text
  | _ => throw (new_Error invalidTranscription)
  end.

(** The block handed to [review]: the ten fields mapped from
    [runConfig.audioReview] and the note; nothing is spread into it. *)
Definition reviewBlock (runConfig : Config) (note : string) : ReviewConfig :=
  let audioReview := audioReview runConfig in
  {| rv_includeCommitHistory := audioReview ≫= ar_includeCommitHistory;
     rv_includeRecentDiffs := audioReview ≫= ar_includeRecentDiffs;
     rv_includeReleaseNotes := audioReview ≫= ar_includeReleaseNotes;
     rv_includeGithubIssues := audioReview ≫= ar_includeGithubIssues;
     rv_commitHistoryLimit := audioReview ≫= ar_commitHistoryLimit;
     rv_diffHistoryLimit := audioReview ≫= ar_diffHistoryLimit;
     rv_releaseNotesLimit := audioReview ≫= ar_releaseNotesLimit;
     rv_githubIssuesLimit := audioReview ≫= ar_githubIssuesLimit;
     rv_sendit := audioReview ≫= ar_sendit;
     rv_context := audioReview ≫= ar_context;
     rv_note := Some note;
     rv_rest := ∅ |}.

(** [`Audio Review from ${path.basename(audioFilePath)}:\n\n${audioContext.trim()}`] *)
Definition batchNote (w : World) (audioFilePath audioContext : string) : string :=
  "Audio Review from " +:+ path_basename w audioFilePath +:+ ":" +:+ Js.nl +:+ Js.nl
    +:+ Js.trim audioContext.

(** [`Failed to process ${path.basename(audioFilePath)}: ${error.message}`] *)
Definition failureOutcome (w : World) (audioFilePath : string) (error : JsError) : string :=
  "Failed to process " +:+ path_basename w audioFilePath +:+ ": " +:+ err_message error.

Definition processSingleAudioFile (w : World) (audioFilePath : string) (runConfig : Config)
  : M string :=
  try_catch
    (let options := transcribeOptions w runConfig in
     let! transcription :=
       call (EvTranscribeAudio audioFilePath options)
            (fun t => transcribeAudio w t audioFilePath options) in
     let! audioContext := validText transcription in
     if negb (Js.nonEmpty (Js.trim audioContext)) then ret ""
     else
       let delegated :=
         with_review runConfig (reviewBlock runConfig (batchNote w audioFilePath audioContext)) in
       call (EvReview delegated) (fun t => executeReview w t delegated))
    (fun error => ret (failureOutcome w audioFilePath error)).

(** [`File: ${path.basename(audioFile)}\n${result}`] *)
Definition fileSection (w : World) (audioFile result : string) : string :=
  "File: " +:+ path_basename w audioFile +:+ Js.nl +:+ result.

(** The [for] loop of the batch: one [results.push] per file, in order. *)
Fixpoint processEach (w : World) (runConfig : Config) (audioFiles : list string)
  : M (list string) :=
  match audioFiles with
  | [] => ret []
  | audioFile :: more =>
      let! result := processSingleAudioFile w audioFile runConfig in
      let! results := processEach w runConfig more in
      ret (fileSection w audioFile result :: results)
  end.

Definition batchSeparator : string :=
  Js.nl +:+ Js.nl +:+ "---" +:+ Js.nl +:+ Js.nl.

(** [`Batch Audio Review Results (${audioFiles.length} files):\n\n`] *)
Definition batchHeader (count : nat) : string :=
  "Batch Audio Review Results (" +:+ Js.ofNat count +:+ " files):" +:+ Js.nl +:+ Js.nl.

(** The note of the single-file flow:
    [audioContext.trim() || runConfig.review?.note || ''] *)
Definition resolvedNote (runConfig : Config) (audioContext : string) : string :=
  Js.orElse (Some (Js.trim audioContext)) (Js.orElse (review runConfig ≫= rv_note) "").

(** The [catch] of the audio phase. *)
Definition onAudioError (error : JsError) : M string :=
  if String.eqb (err_name error) "CancellationError" then throw error else ret "".

(** The [try] block of the single-file flow. *)
Definition audioPhase (w : World) (runConfig : Config) : M string :=
  let file := audioReview runConfig ≫= ar_file in
  let maxRecordingTime := audioReview runConfig ≫= ar_maxRecordingTime in
  let isRecording := negb (Js.truthy file) in
  let! countdownTimer :=
    (if isRecording && Js.isPositive maxRecordingTime
     then emit (EvCountdownCreate (default 0 maxRecordingTime)) >>
          emit EvCountdownStart >> ret true
     else ret false) in
  let options :=
    {| pa_file := file;
       pa_maxRecordingTime := maxRecordingTime;
       pa_outputDirectory := Js.orElse (outputDirectory runConfig) "output";
       pa_debug := debug runConfig |} in
  let! audioResult :=
    try_finally
      (call (EvProcessAudio options) (fun t => processAudio w t options))
      (if countdownTimer then emit EvCountdownStop else ret tt) in
  match audioResult with
  | AudioNullish => throw (new_TypeError (typeErrorMessage w))
  | AudioObject cancelled reported =>
      if cancelled
      then throw (new_CancellationError w "Audio review cancelled by user")
      else
        let! audioFilePath :=
          (if Js.truthy file then ret (default "" file)
           else if Js.truthy reported then ret (default "" reported)
           else
             let outputDir := Js.orElse (outputDirectory runConfig) "output" in
             let! name := timestampedAudioFilename w in
             ret (path_join w [outputDir; name])) in
        let options := transcribeOptions w runConfig in
        let! transcription :=
          call (EvTranscribeAudio audioFilePath options)
               (fun t => transcribeAudio w t audioFilePath options) in
        let! audioContext := validText transcription in
        if negb (Js.nonEmpty (Js.trim audioContext)) then ret "" else ret audioContext
  end.

(** The batch branch of [execute], after the dry-run test. *)
Definition batch (w : World) (runConfig : Config) (directory : string) : M string :=
  try_catch
    (let! audioFiles := discoverAudioFiles w directory in
     if (length audioFiles =? 0)%nat then ret noFilesResult
     else
       let! results := processEach w runConfig audioFiles in
       ret (batchHeader (length audioFiles) +:+ Js.join batchSeparator results))
    (fun error => throw error).

Definition execute (w : World) (runConfig : Config) : M string :=
  let isDryRun := Js.orFalse (dryRun runConfig) in
  let directory := audioReview runConfig ≫= ar_directory in
  if Js.truthy directory then
    if isDryRun then ret batchDryRunPreview
    else batch w runConfig (default "" directory)
  else if isDryRun then ret dryRunPreview
  else
    let! audioContext := try_catch (audioPhase w runConfig) onAudioError in
    let delegated :=
      with_review runConfig (reviewBlock runConfig (resolvedNote runConfig audioContext)) in
    call (EvReview delegated) (fun t => executeReview w t delegated).

End AudioReview.

(** ** select-audio *)

Module SelectAudio.

Definition dryRunResult : string := "Audio device selection completed (dry run)".

Definition getUnplayableConfigPath (w : World) : M string :=
  try_catch
    (let! home := call EvHomedir (homedir w) in
     ret (path_join w [home; ".unplayable"; "audio-device.json"]))
    (fun error =>
       throw (new_Error ("Failed to determine home directory: " +:+ err_message error))).

(** The [catch] of the live branch. *)
Definition onSelectError (error : JsError) : M string :=
  if Js.nonEmpty (err_message error)
     && Js.includes "Failed to determine home directory" (err_message error)
  then throw (new_Error ("Failed to determine home directory: " +:+ err_message error))
  else
    let errorMessage :=
      if Js.nonEmpty (err_message error) then err_message error else err_toString error in
    throw (new_Error ("Audio device selection failed: " +:+ errorMessage)).

Definition execute (w : World) (runConfig : Config) : M string :=
  let isDryRun := Js.orFalse (dryRun runConfig) in
  if isDryRun then
    try_catch
      (let! configPath := getUnplayableConfigPath w in ret dryRunResult)
      (fun error => ret dryRunResult)
  else
    try_catch
      (let! home := call EvHomedir (homedir w) in
       let preferencesDir := path_join w [home; ".unplayable"] in
       call (EvSelectAndConfigureAudioDevice preferencesDir (debug runConfig))
            (fun t => selectAndConfigureAudioDevice w t preferencesDir (debug runConfig)))
      onSelectError.

End SelectAudio.

(** ** The two commands that orchestrate audio, side by side *)

Inductive Command : Type :=
| AudioCommitCmd
| AudioReviewCmd.

Definition run (cmd : Command) : World -> Config -> M string :=
  match cmd with
  | AudioCommitCmd => AudioCommit.execute
  | AudioReviewCmd => AudioReview.execute
  end.

Definition audioPhase (cmd : Command) : World -> Config -> M string :=
  match cmd with
  | AudioCommitCmd => AudioCommit.audioPhase
  | AudioReviewCmd => AudioReview.audioPhase
  end.

(** The [file] and [maxRecordingTime] options of the command. *)
Definition fileOption (cmd : Command) (runConfig : Config) : option string :=
  match cmd with
  | AudioCommitCmd => audioCommit runConfig ≫= ac_file
  | AudioReviewCmd => audioReview runConfig ≫= ar_file
  end.

Definition maxRecordingTimeOption (cmd : Command) (runConfig : Config) : option Z :=
  match cmd with
  | AudioCommitCmd => audioCommit runConfig ≫= ac_maxRecordingTime
  | AudioReviewCmd => audioReview runConfig ≫= ar_maxRecordingTime
  end.

(** Live single-file/recording mode: no dry run and, for the review, no
    directory option. *)
Definition singleFileLive (cmd : Command) (runConfig : Config) : bool :=
  negb (Js.orFalse (dryRun runConfig)) &&
  match cmd with
  | AudioCommitCmd => true
  | AudioReviewCmd => negb (Js.truthy (audioReview runConfig ≫= ar_directory))
  end.

(** What each command's [catch] takes for a cancellation. *)
Definition isCancellation (cmd : Command) (error : JsError) : bool :=
  match cmd with
  | AudioCommitCmd =>
      err_isUserCancellationError error
      || String.eqb (err_name error) "CancellationError"
      || err_isCancellationError error
  | AudioReviewCmd => String.eqb (err_name error) "CancellationError"
  end.

(** The downstream command and its event. *)
Definition downstream (cmd : Command) (w : World) : Trace -> Config -> Outcome string :=
  match cmd with
  | AudioCommitCmd => executeCommit w
  | AudioReviewCmd => executeReview w
  end.

Definition delegation (cmd : Command) (delegated : Config) : Event :=
  match cmd with
  | AudioCommitCmd => EvCommit delegated
  | AudioReviewCmd => EvReview delegated
  end.

(** The designated free-text field of a config: [commit.direction] for the
    commit, [review.note] for the review. *)
Definition freeText (cmd : Command) (config : Config) : option string :=
  match cmd with
  | AudioCommitCmd => commit config ≫= cm_direction
  | AudioReviewCmd => review config ≫= rv_note
  end.

Definition isDelegation (ev : Event) : bool :=
  match ev with
  | EvCommit _ | EvReview _ => true
  | _ => false
  end.

Definition isCountdown (ev : Event) : bool :=
  match ev with
  | EvCountdownCreate _ | EvCountdownStart | EvCountdownStop => true
  | _ => false
  end.

Definition isAcquisition (ev : Event) : bool :=
  match ev with
  | EvProcessAudio _ => true
  | _ => false
  end.

Definition isTranscription (ev : Event) : bool :=
  match ev with
  | EvTranscribeAudio _ _ => true
  | _ => false
  end.

(** The options the command hands to [processAudio]. *)
Definition audioOptions (cmd : Command) (runConfig : Config) : ProcessAudioOptions :=
  {| pa_file := fileOption cmd runConfig;
     pa_maxRecordingTime := maxRecordingTimeOption cmd runConfig;
     pa_outputDirectory := Js.orElse (outputDirectory runConfig) "output";
     pa_debug := debug runConfig |}.

(** Whether the command starts a countdown: recording (no file) with a
    positive [maxRecordingTime]. *)
Definition startsCountdown (cmd : Command) (runConfig : Config) : bool :=
  negb (Js.truthy (fileOption cmd runConfig))
  && Js.isPositive (maxRecordingTimeOption cmd runConfig).

(** The events before and after the [processAudio] call. *)
Definition countdownBefore (cmd : Command) (runConfig : Config) : Trace :=
  if startsCountdown cmd runConfig
  then [EvCountdownCreate (default 0 (maxRecordingTimeOption cmd runConfig)); EvCountdownStart]
  else [].

Definition countdownAfter (cmd : Command) (runConfig : Config) : Trace :=
  if startsCountdown cmd runConfig then [EvCountdownStop] else [].

(** The events of the acquisition phase. *)
Definition acquisitionEvents (cmd : Command) (runConfig : Config) : Trace :=
  countdownBefore cmd runConfig
    ++ [EvProcessAudio (audioOptions cmd runConfig)]
    ++ countdownAfter cmd runConfig.

(** ** A concrete world, for the examples *)

Module Posix.

Definition slash : ascii := "/"%char.
Definition dot : ascii := "."%char.

(** Appends one code unit. *)
Definition snoc (s : string) (c : ascii) : string := s +:+ String c EmptyString.

(** The last non-empty [/]-separated component seen so far. *)
Fixpoint lastComponent (s last cur : string) : string :=
  match s with
  | EmptyString => if Js.nonEmpty cur then cur else last
  | String c r =>
      if Ascii.eqb c slash
      then lastComponent r (if Js.nonEmpty cur then cur else last) EmptyString
      else lastComponent r last (snoc cur c)
  end.

(** [path.basename(p)] of Node's POSIX [path]: the last component, trailing
    separators ignored. *)
Definition basename (p : string) : string := lastComponent p EmptyString EmptyString.

(** The suffix of [s] that starts at its last dot, if it has a dot. *)
Fixpoint fromLastDot (s : string) : option string :=
  match s with
  | EmptyString => None
  | String c r =>
      match fromLastDot r with
      | Some suffix => Some suffix
      | None => if Ascii.eqb c dot then Some s else None
      end
  end.

(** [path.extname(p)] of Node's POSIX [path]: from the last dot of the last
    component; empty when there is no dot, when the dot is the first
    character of the component, and for the component [..]. *)
Definition extname (p : string) : string :=
  let base := basename p in
  match fromLastDot base with
  | None => EmptyString
  | Some suffix =>
      if (String.length suffix =? String.length base)%nat then EmptyString
      else if String.eqb base ".." then EmptyString
      else suffix
  end.

(** [path.join(...segments)] on segments that need no normalisation (no
    [.] or [..] component, no doubled or trailing separator): the non-empty
    segments, separated by [/]. *)
Definition join (segments : list string) : string :=
  String.concat "/" (List.filter Js.nonEmpty segments).

End Posix.

Module Example.

(** A world whose collaborators answer the same on every call. *)
Definition world
  (audio : Outcome AudioResult) (transcription : Outcome Transcription)
  (generated : Outcome string) (files : list string) : World :=
  {| processAudio := fun _ _ => audio;
     transcribeAudio := fun _ _ _ => transcription;
     executeCommit := fun _ _ => generated;
     executeReview := fun _ _ => generated;
     getTimestampedAudioFilename := fun _ => "audio-20260110-120000.wav";
     isDirectoryReadable := fun _ _ => Returns true;
     listFiles := fun _ _ => Returns files;
     homedir := fun _ => Returns "/home/dev";
     selectAndConfigureAudioDevice := fun _ _ _ => Returns "Device configured successfully";
     path_join := Posix.join;
     path_basename := Posix.basename;
     path_extname := Posix.extname;
     UserCancellationError_name := "UserCancellationError";
     UserCancellationError_extends_CancellationError := false;
     CancellationError_name := "CancellationError";
     typeErrorMessage := "Cannot read properties of undefined" |}.

Definition noAudioCommit : AudioCommitConfig :=
  {| ac_file := None; ac_maxRecordingTime := None; ac_rest := ∅ |}.

Definition noAudioReview : AudioReviewConfig :=
  {| ar_file := None; ar_directory := None; ar_maxRecordingTime := None;
     ar_includeCommitHistory := None; ar_includeRecentDiffs := None;
     ar_includeReleaseNotes := None; ar_includeGithubIssues := None;
     ar_commitHistoryLimit := None; ar_diffHistoryLimit := None;
     ar_releaseNotesLimit := None; ar_githubIssuesLimit := None;
     ar_sendit := None; ar_context := None; ar_rest := ∅ |}.

(** [{ dryRun: false, model: 'gpt-4', audioCommit, audioReview }] *)
Definition config (ac : AudioCommitConfig) (ar : AudioReviewConfig) : Config :=
  {| dryRun := Some false; debug := None; outputDirectory := None;
     audioCommit := Some ac; audioReview := Some ar;
     commit := None; review := None;
     rest := {[ "model" := JsString "gpt-4" ]} |}.

Definition withDryRun (c : Config) : Config :=
  {| dryRun := Some true; debug := debug c; outputDirectory := outputDirectory c;
     audioCommit := audioCommit c; audioReview := audioReview c;
     commit := commit c; review := review c; rest := rest c |}.

Definition fromFile (file : string) : AudioCommitConfig :=
  {| ac_file := Some file; ac_maxRecordingTime := None; ac_rest := ∅ |}.

Definition recording (seconds : Z) : AudioCommitConfig :=
  {| ac_file := None; ac_maxRecordingTime := Some seconds; ac_rest := ∅ |}.

Definition reviewFromFile (file : string) : AudioReviewConfig :=
  {| ar_file := Some file; ar_directory := None; ar_maxRecordingTime := None;
     ar_includeCommitHistory := Some true; ar_includeRecentDiffs := None;
     ar_includeReleaseNotes := None; ar_includeGithubIssues := None;
     ar_commitHistoryLimit := Some 10; ar_diffHistoryLimit := None;
     ar_releaseNotesLimit := None; ar_githubIssuesLimit := None;
     ar_sendit := None; ar_context := Some "Review context"; ar_rest := ∅ |}.

Definition reviewDirectory (directory : string) : AudioReviewConfig :=
  {| ar_file := None; ar_directory := Some directory; ar_maxRecordingTime := None;
     ar_includeCommitHistory := None; ar_includeRecentDiffs := None;
     ar_includeReleaseNotes := None; ar_includeGithubIssues := None;
     ar_commitHistoryLimit := None; ar_diffHistoryLimit := None;
     ar_releaseNotesLimit := None; ar_githubIssuesLimit := None;
     ar_sendit := None; ar_context := None; ar_rest := ∅ |}.

Definition said (text : string) : Outcome Transcription :=
  Returns (TranscriptionObject (TextString text)).

(** A world for the batch: the transcription depends on the path. *)
Definition batchWorld
  (transcription : string -> Outcome Transcription) (generated : Outcome string)
  (files : list string) : World :=
  {| processAudio := fun _ _ => Returns AudioNullish;
     transcribeAudio := fun _ path _ => transcription path;
     executeCommit := fun _ _ => generated;
     executeReview := fun _ _ => generated;
     getTimestampedAudioFilename := fun _ => "audio-20260110-120000.wav";
     isDirectoryReadable := fun _ _ => Returns true;
     listFiles := fun _ _ => Returns files;
     homedir := fun _ => Returns "/home/dev";
     selectAndConfigureAudioDevice := fun _ _ _ => Returns "Device configured successfully";
     path_join := Posix.join;
     path_basename := Posix.basename;
     path_extname := Posix.extname;
     UserCancellationError_name := "UserCancellationError";
     UserCancellationError_extends_CancellationError := false;
     CancellationError_name := "CancellationError";
     typeErrorMessage := "Cannot read properties of undefined" |}.

(** The second of two recordings is corrupt. *)
Definition secondFails (path : string) : Outcome Transcription :=
  if String.eqb path "/recs/b.wav" then Throws (new_Error "corrupt file")
  else said "fix the parser".

Definition recorded (path : string) : Outcome AudioResult :=
  Returns (AudioObject false (Some path)).

End Example.

(** * The vocabulary of the statements *)

(** The error each command raises on a cancelled recording. *)
Definition cancelledError (cmd : Command) (w : World) : JsError :=
  match cmd with
  | AudioCommitCmd => new_UserCancellationError w "Audio commit cancelled by user"
  | AudioReviewCmd => new_CancellationError w "Audio review cancelled by user"
  end.

(** The error a transcription of the wrong shape ends in: the engine's
    TypeError in the commit, the explicit validation error in the review. *)
Definition shapeError (cmd : Command) (w : World) : JsError :=
  match cmd with
  | AudioCommitCmd => new_TypeError (typeErrorMessage w)
  | AudioReviewCmd => new_Error AudioReview.invalidTranscription
  end.

(** A transcription has the right shape when it is an object whose [text]
    is a string. *)
Definition validShape (transcription : Transcription) : bool :=
  match transcription with
  | TranscriptionObject (TextString _) => true
  | _ => false
  end.

(** The audio path handed to transcription, on the trace [t] of the calls
    made so far. *)
Definition resolvedAudioPath
  (cmd : Command) (w : World) (runConfig : Config) (reported : option string) (t : Trace)
  : string :=
  if Js.truthy (fileOption cmd runConfig) then default "" (fileOption cmd runConfig)
  else if Js.truthy reported then default "" reported
  else path_join w [Js.orElse (outputDirectory runConfig) "output";
                    getTimestampedAudioFilename w t].

(** What the audio phase makes of a transcription. *)
Definition transcriptOf (cmd : Command) (w : World) (transcription : Transcription)
  : Outcome string :=
  match transcription with
  | TranscriptionObject (TextString text) =>
      Returns (if Js.nonEmpty (Js.trim text) then text else "")
  | _ => Throws (shapeError cmd w)
  end.

(** The config handed to the downstream command for a transcript. *)
Definition delegatedConfig (cmd : Command) (runConfig : Config) (audioContext : string)
  : Config :=
  match cmd with
  | AudioCommitCmd => with_commit runConfig (AudioCommit.commitBlock runConfig audioContext)
  | AudioReviewCmd =>
      with_review runConfig
        (AudioReview.reviewBlock runConfig (AudioReview.resolvedNote runConfig audioContext))
  end.

(** What the [catch] of the audio phase rethrows for a cancellation. *)
Definition propagated (cmd : Command) (w : World) (error : JsError) : JsError :=
  match cmd with
  | AudioCommitCmd =>
      if err_isUserCancellationError error then error
      else new_UserCancellationError w (err_message error)
  | AudioReviewCmd => error
  end.

Definition isCountdownCreate (ev : Event) : bool :=
  match ev with
  | EvCountdownCreate _ => true
  | _ => false
  end.

Definition isCountdownStop (ev : Event) : bool :=
  match ev with
  | EvCountdownStop => true
  | _ => false
  end.

Definition count (p : Event -> bool) (t : Trace) : nat := length (List.filter p t).

(** A cancellation of the older class, as [processAudio] may raise it. *)
Definition oldCancellation : JsError :=
  {| err_name := "CancellationError"; err_message := "Recording cancelled";
     err_isUserCancellationError := false; err_isCancellationError := true |}.

(** [runConfig] with the review pointed at one file instead of a directory. *)
Definition forFile (runConfig : Config) (audioFilePath : string) : Config :=
  {| dryRun := dryRun runConfig;
     debug := debug runConfig;
     outputDirectory := outputDirectory runConfig;
     audioCommit := audioCommit runConfig;
     audioReview :=
       Some {| ar_file := Some audioFilePath;
               ar_directory := None;
               ar_maxRecordingTime := audioReview runConfig ≫= ar_maxRecordingTime;
               ar_includeCommitHistory := audioReview runConfig ≫= ar_includeCommitHistory;
               ar_includeRecentDiffs := audioReview runConfig ≫= ar_includeRecentDiffs;
               ar_includeReleaseNotes := audioReview runConfig ≫= ar_includeReleaseNotes;
               ar_includeGithubIssues := audioReview runConfig ≫= ar_includeGithubIssues;
               ar_commitHistoryLimit := audioReview runConfig ≫= ar_commitHistoryLimit;
               ar_diffHistoryLimit := audioReview runConfig ≫= ar_diffHistoryLimit;
               ar_releaseNotesLimit := audioReview runConfig ≫= ar_releaseNotesLimit;
               ar_githubIssuesLimit := audioReview runConfig ≫= ar_githubIssuesLimit;
               ar_sendit := audioReview runConfig ≫= ar_sendit;
               ar_context := audioReview runConfig ≫= ar_context;
               ar_rest := from_option ar_rest ∅ (audioReview runConfig) |};
     commit := commit runConfig;
     review := review runConfig;
     rest := rest runConfig |}.

(** The per-file pipeline in the words of the specification: the single-file
    algorithm (acquisition, transcription, delegation) run on the file, with
    every failure caught and recorded as the file's outcome. *)
Definition perFileAsSpecified (w : World) (audioFilePath : string) (runConfig : Config)
  : M string :=
  try_catch
    (AudioReview.execute w (forFile runConfig audioFilePath))
    (fun error => ret (AudioReview.failureOutcome w audioFilePath error)).

(** The kinds of collaborator calls in a trace. *)
Inductive CallKind : Type :=
| Countdown
| Acquisition
| TranscriptionCall
| Delegation
| Storage
| Device.

Definition kindOf (ev : Event) : CallKind :=
  match ev with
  | EvCountdownCreate _ | EvCountdownStart | EvCountdownStop => Countdown
  | EvProcessAudio _ => Acquisition
  | EvTranscribeAudio _ _ => TranscriptionCall
  | EvCommit _ | EvReview _ => Delegation
  | EvIsDirectoryReadable _ | EvListFiles _ => Storage
  | EvHomedir | EvSelectAndConfigureAudioDevice _ _ => Device
  end.

(** The outcome of one file of the batch, started on the trace [t]: its
    content in the report and the trace it leaves. *)
Inductive FileOutcome (w : World) (runConfig : Config) (audioFile : string) (t : Trace)
  : string -> Trace -> Prop :=
| TranscriptionFailed (error : JsError) :
    transcribeAudio w t audioFile (transcribeOptions w runConfig) = Throws error ->
    FileOutcome w runConfig audioFile t
      ("Failed to process " +:+ path_basename w audioFile +:+ ": " +:+ err_message error)
      (t ++ [EvTranscribeAudio audioFile (transcribeOptions w runConfig)])
| ShapeRejected (transcription : Transcription) :
    transcribeAudio w t audioFile (transcribeOptions w runConfig) = Returns transcription ->
    validShape transcription = false ->
    FileOutcome w runConfig audioFile t
      ("Failed to process " +:+ path_basename w audioFile +:+ ": "
         +:+ "Invalid transcription result: missing or invalid text property")
      (t ++ [EvTranscribeAudio audioFile (transcribeOptions w runConfig)])
| BlankTranscript (text : string) :
    transcribeAudio w t audioFile (transcribeOptions w runConfig)
      = Returns (TranscriptionObject (TextString text)) ->
    Js.trim text = "" ->
    FileOutcome w runConfig audioFile t ""
      (t ++ [EvTranscribeAudio audioFile (transcribeOptions w runConfig)])
| Reviewed (text : string) (delegated : Config) (result : string) :
    transcribeAudio w t audioFile (transcribeOptions w runConfig)
      = Returns (TranscriptionObject (TextString text)) ->
    Js.trim text <> "" ->
    delegated
      = with_review runConfig
          (AudioReview.reviewBlock runConfig (AudioReview.batchNote w audioFile text)) ->
    executeReview w (t ++ [EvTranscribeAudio audioFile (transcribeOptions w runConfig)])
      delegated = Returns result ->
    FileOutcome w runConfig audioFile t result
      (t ++ [EvTranscribeAudio audioFile (transcribeOptions w runConfig); EvReview delegated])
| ReviewFailed (text : string) (delegated : Config) (error : JsError) :
    transcribeAudio w t audioFile (transcribeOptions w runConfig)
      = Returns (TranscriptionObject (TextString text)) ->
    Js.trim text <> "" ->
    delegated
      = with_review runConfig
          (AudioReview.reviewBlock runConfig (AudioReview.batchNote w audioFile text)) ->
    executeReview w (t ++ [EvTranscribeAudio audioFile (transcribeOptions w runConfig)])
      delegated = Throws error ->
    FileOutcome w runConfig audioFile t
      ("Failed to process " +:+ path_basename w audioFile +:+ ": " +:+ err_message error)
      (t ++ [EvTranscribeAudio audioFile (transcribeOptions w runConfig); EvReview delegated]).

(** The outcome of the files of the batch, one after the other: each file
    starts on the trace the file before it left, and contributes one
    section, 'File: <basename>', a line feed, and its content. *)
Inductive BatchOutcome (w : World) (runConfig : Config)
  : Trace -> list string -> list string -> Trace -> Prop :=
| BatchDone (t : Trace) : BatchOutcome w runConfig t [] [] t
| BatchNext (t t1 t2 : Trace) (audioFile content : string) (more sections : list string) :
    FileOutcome w runConfig audioFile t content t1 ->
    BatchOutcome w runConfig t1 more sections t2 ->
    BatchOutcome w runConfig t (audioFile :: more)
      (("File: " +:+ path_basename w audioFile +:+ Js.nl +:+ content) :: sections) t2.

(** The paths handed to [transcribeAudio] along a trace. *)
Definition transcribedPaths (t : Trace) : list string :=
  omap (fun ev => match ev with EvTranscribeAudio path _ => Some path | _ => None end) t.

(** The delegated config against the invocation config: every top-level
    field but the downstream block is the same; the commit block keeps its
    other properties and has a direction; the review block has the ten
    options of [audioReview], a note, and no other property. *)
Definition framed (cmd : Command) (runConfig delegated : Config) : Prop :=
  dryRun delegated = dryRun runConfig /\
  debug delegated = debug runConfig /\
  outputDirectory delegated = outputDirectory runConfig /\
  audioCommit delegated = audioCommit runConfig /\
  audioReview delegated = audioReview runConfig /\
  rest delegated = rest runConfig /\
  match cmd with
  | AudioCommitCmd =>
      review delegated = review runConfig /\
      exists block,
        commit delegated = Some block /\
        cm_direction block <> None /\
        cm_rest block = from_option cm_rest ∅ (commit runConfig)
  | AudioReviewCmd =>
      commit delegated = commit runConfig /\
      exists block,
        review delegated = Some block /\
        rv_includeCommitHistory block = audioReview runConfig ≫= ar_includeCommitHistory /\
        rv_includeRecentDiffs block = audioReview runConfig ≫= ar_includeRecentDiffs /\
        rv_includeReleaseNotes block = audioReview runConfig ≫= ar_includeReleaseNotes /\
        rv_includeGithubIssues block = audioReview runConfig ≫= ar_includeGithubIssues /\
        rv_commitHistoryLimit block = audioReview runConfig ≫= ar_commitHistoryLimit /\
        rv_diffHistoryLimit block = audioReview runConfig ≫= ar_diffHistoryLimit /\
        rv_releaseNotesLimit block = audioReview runConfig ≫= ar_releaseNotesLimit /\
        rv_githubIssuesLimit block = audioReview runConfig ≫= ar_githubIssuesLimit /\
        rv_sendit block = audioReview runConfig ≫= ar_sendit /\
        rv_context block = audioReview runConfig ≫= ar_context /\
        rv_note block <> None /\
        rv_rest block = ∅
  end.

(** An event that is no delegation, or the delegation of a config built
    from [runConfig] by the command. *)
Definition builtFrom (cmd : Command) (runConfig : Config) (ev : Event) : Prop :=
  isDelegation ev = false \/
  match cmd with
  | AudioCommitCmd =>
      exists audioContext,
        ev = EvCommit (with_commit runConfig (AudioCommit.commitBlock runConfig audioContext))
  | AudioReviewCmd =>
      exists note,
        ev = EvReview (with_review runConfig (AudioReview.reviewBlock runConfig note))
  end.

(** A review block with a property of its own, beside the mapped ones. *)
Definition reviewWithExtras : ReviewConfig :=
  {| rv_includeCommitHistory := None; rv_includeRecentDiffs := None;
     rv_includeReleaseNotes := None; rv_includeGithubIssues := None;
     rv_commitHistoryLimit := None; rv_diffHistoryLimit := None;
     rv_releaseNotesLimit := None; rv_githubIssuesLimit := None;
     rv_sendit := None; rv_context := None; rv_note := None;
     rv_rest := {[ "maxContextErrors" := JsNumber 5 ]} |}.

(** Whether an answer of [processAudio] lets the audio phase go on to the
    transcription: an object that is not cancelled. *)
Definition acquired (answer : Outcome AudioResult) : bool :=
  match answer with
  | Returns (AudioObject false _) => true
  | _ => false
  end.

(** An event that is no transcription, or a transcription with the options
    the commands build from [runConfig]. *)
Definition transcribesWith (w : World) (runConfig : Config) (ev : Event) : Prop :=
  match ev with
  | EvTranscribeAudio _ options => options = transcribeOptions w runConfig
  | _ => True
  end.

(** The calls a batch may make: storage, transcription, delegation. *)
Definition isBatchCall (ev : Event) : bool :=
  match kindOf ev with
  | Storage | TranscriptionCall | Delegation => true
  | _ => false
  end.

(** The calls select-audio may make. *)
Definition isDeviceCall (ev : Event) : bool :=
  match kindOf ev with
  | Device => true
  | _ => false
  end.

(** A world whose home directory cannot be determined. *)
Definition homeless (w : World) (error : JsError) : World :=
  {| processAudio := processAudio w;
     transcribeAudio := transcribeAudio w;
     executeCommit := executeCommit w;
     executeReview := executeReview w;
     getTimestampedAudioFilename := getTimestampedAudioFilename w;
     isDirectoryReadable := isDirectoryReadable w;
     listFiles := listFiles w;
     homedir := fun _ => Throws error;
     selectAndConfigureAudioDevice := selectAndConfigureAudioDevice w;
     path_join := path_join w;
     path_basename := path_basename w;
     path_extname := path_extname w;
     UserCancellationError_name := UserCancellationError_name w;
     UserCancellationError_extends_CancellationError :=
       UserCancellationError_extends_CancellationError w;
     CancellationError_name := CancellationError_name w;
     typeErrorMessage := typeErrorMessage w |}.

(** A world whose directory is not readable. *)
Definition unreadable (w : World) : World :=
  {| processAudio := processAudio w;
     transcribeAudio := transcribeAudio w;
     executeCommit := executeCommit w;
     executeReview := executeReview w;
     getTimestampedAudioFilename := getTimestampedAudioFilename w;
     isDirectoryReadable := fun _ _ => Returns false;
     listFiles := listFiles w;
     homedir := homedir w;
     selectAndConfigureAudioDevice := selectAndConfigureAudioDevice w;
     path_join := path_join w;
     path_basename := path_basename w;
     path_extname := path_extname w;
     UserCancellationError_name := UserCancellationError_name w;
     UserCancellationError_extends_CancellationError :=
       UserCancellationError_extends_CancellationError w;
     CancellationError_name := CancellationError_name w;
     typeErrorMessage := typeErrorMessage w |}.

(** A world whose listing depends on the calls made before it: the entries
    come in one order on a fresh trace, in another afterwards. *)
Definition relisting (w : World) (first later : list string) : World :=
  {| processAudio := processAudio w;
     transcribeAudio := transcribeAudio w;
     executeCommit := executeCommit w;
     executeReview := executeReview w;
     getTimestampedAudioFilename := getTimestampedAudioFilename w;
     isDirectoryReadable := isDirectoryReadable w;
     listFiles :=
       fun t _ => if (length t <=? 1)%nat then Returns first else Returns later;
     homedir := homedir w;
     selectAndConfigureAudioDevice := selectAndConfigureAudioDevice w;
     path_join := path_join w;
     path_basename := path_basename w;
     path_extname := path_extname w;
     UserCancellationError_name := UserCancellationError_name w;
     UserCancellationError_extends_CancellationError :=
       UserCancellationError_extends_CancellationError w;
     CancellationError_name := CancellationError_name w;
     typeErrorMessage := typeErrorMessage w |}.

(** * Properties *)

Ltac unfold_cmd :=
  unfold bind, try_catch, try_finally, call, emit, ret, throw,
    timestampedAudioFilename in *.

Lemma app_assoc3 {A} (t a b : list A) : (t ++ a) ++ b = t ++ a ++ b.
Proof. symmetry. apply List.app_assoc. Qed.

Lemma append_assoc (a b c : string) : (a +:+ b) +:+ c = a +:+ (b +:+ c).
Proof.
  induction a as [|x a IH]; [reflexivity|].
  change (String x ((a +:+ b) +:+ c) = String x (a +:+ (b +:+ c))). rewrite IH. reflexivity.
Qed.

(** ** Dry run *)

(** C5. With [dryRun] set, the commit and the review return a preview that
    contains the DRY RUN marker (the commit's also mentions "transcribe"),
    and the trace is left as it was: no acquisition, transcription or
    delegation call is made. *)
Theorem dry_run_calls_no_collaborator
  (cmd : Command) (w : World) (runConfig : Config) (t : Trace) :
  dryRun runConfig = Some true ->
  exists preview,
    run cmd w runConfig t = (Returns preview, t) /\
    Js.includes "DRY RUN" preview = true /\
    (cmd = AudioCommitCmd -> Js.includes "transcribe" preview = true).
Proof.
  intros Hdry. destruct cmd; simpl.
  - exists AudioCommit.dryRunPreview. split; [|split; [reflexivity|intros _; reflexivity]].
    unfold AudioCommit.execute, AudioCommit.executeInternal. rewrite Hdry. reflexivity.
  - unfold AudioReview.execute. rewrite Hdry. simpl.
    destruct (Js.truthy (audioReview runConfig ≫= ar_directory)).
    + exists AudioReview.batchDryRunPreview. split; [reflexivity|].
      split; [reflexivity|discriminate].
    + exists AudioReview.dryRunPreview. split; [reflexivity|].
      split; [reflexivity|discriminate].
Qed.

Lemma dry_run_calls_no_collaborator_witness :
  exists preview,
    run AudioCommitCmd
      (Example.world (Throws (new_Error "no microphone")) (Throws (new_Error "offline"))
         (Throws (new_Error "unreachable")) [])
      (Example.withDryRun (Example.config Example.noAudioCommit Example.noAudioReview)) []
    = (Returns preview, []) /\
    Js.includes "DRY RUN" preview = true /\
    (AudioCommitCmd = AudioCommitCmd -> Js.includes "transcribe" preview = true).
Proof. apply dry_run_calls_no_collaborator. reflexivity. Defined.

(** ** The single-file flow, step by step *)

Lemma audioPhase_steps (cmd : Command) (w : World) (runConfig : Config) (t : Trace) :
  audioPhase cmd w runConfig t =
  let t1 := t ++ acquisitionEvents cmd runConfig in
  match processAudio w (t ++ countdownBefore cmd runConfig) (audioOptions cmd runConfig) with
  | Throws error => (Throws error, t1)
  | Returns AudioNullish => (Throws (new_TypeError (typeErrorMessage w)), t1)
  | Returns (AudioObject true _) => (Throws (cancelledError cmd w), t1)
  | Returns (AudioObject false reported) =>
      let audioFilePath := resolvedAudioPath cmd w runConfig reported t1 in
      let options := transcribeOptions w runConfig in
      let t2 := t1 ++ [EvTranscribeAudio audioFilePath options] in
      match transcribeAudio w t1 audioFilePath options with
      | Throws error => (Throws error, t2)
      | Returns transcription => (transcriptOf cmd w transcription, t2)
      end
  end.
Proof.
  destruct cmd; simpl;
    unfold AudioCommit.audioPhase, AudioReview.audioPhase, AudioReview.validText,
      acquisitionEvents, countdownBefore, countdownAfter, resolvedAudioPath,
      startsCountdown, audioOptions; simpl;
    unfold_cmd.
  - destruct (negb (Js.truthy (audioCommit runConfig ≫= ac_file))
              && Js.isPositive (audioCommit runConfig ≫= ac_maxRecordingTime)) eqn:Hc;
      simpl; rewrite ?app_nil_r, ?app_assoc3; simpl.
    all: destruct (processAudio w _ _) as [[|[|] reported]|error]; simpl;
      rewrite ?app_assoc3; simpl; try reflexivity.
    all: destruct (Js.truthy (audioCommit runConfig ≫= ac_file)); simpl;
      [|destruct (Js.truthy reported); simpl].
    all: destruct (transcribeAudio w _ _ _) as [[| |[| text |]]|error];
      simpl; rewrite ?app_assoc3; simpl; try reflexivity.
    all: destruct (Js.nonEmpty (Js.trim text)); reflexivity.
  - destruct (negb (Js.truthy (audioReview runConfig ≫= ar_file))
              && Js.isPositive (audioReview runConfig ≫= ar_maxRecordingTime)) eqn:Hc;
      simpl; rewrite ?app_nil_r, ?app_assoc3; simpl.
    all: destruct (processAudio w _ _) as [[|[|] reported]|error]; simpl;
      rewrite ?app_assoc3; simpl; try reflexivity.
    all: destruct (Js.truthy (audioReview runConfig ≫= ar_file)); simpl;
      [|destruct (Js.truthy reported); simpl].
    all: destruct (transcribeAudio w _ _ _) as [[| |[| text |]]|error];
      simpl; rewrite ?app_assoc3; simpl; try reflexivity.
    all: destruct (Js.nonEmpty (Js.trim text)); reflexivity.
Qed.

Lemma run_steps (cmd : Command) (w : World) (runConfig : Config) (t : Trace) :
  singleFileLive cmd runConfig = true ->
  run cmd w runConfig t =
  match audioPhase cmd w runConfig t with
  | (Returns audioContext, t') =>
      let delegated := delegatedConfig cmd runConfig audioContext in
      (downstream cmd w t' delegated, t' ++ [delegation cmd delegated])
  | (Throws error, t') =>
      if isCancellation cmd error then (Throws (propagated cmd w error), t')
      else
        let delegated := delegatedConfig cmd runConfig "" in
        (downstream cmd w t' delegated, t' ++ [delegation cmd delegated])
  end.
Proof.
  unfold singleFileLive. intros Hlive.
  apply andb_prop in Hlive as [Hdry Hdir]. apply negb_true_iff in Hdry.
  destruct cmd; simpl.
  - unfold AudioCommit.execute, AudioCommit.executeInternal. rewrite Hdry.
    unfold_cmd. destruct (AudioCommit.audioPhase w runConfig t) as [[ctx|error] t'].
    + destruct (executeCommit w t' _); reflexivity.
    + unfold AudioCommit.onAudioError.
      destruct (err_isUserCancellationError error); simpl; [reflexivity|].
      destruct (String.eqb (err_name error) "CancellationError" || err_isCancellationError error);
        simpl; [reflexivity|].
      destruct (executeCommit w t' _); reflexivity.
  - apply negb_true_iff in Hdir. unfold AudioReview.execute. rewrite Hdry, Hdir.
    unfold_cmd. destruct (AudioReview.audioPhase w runConfig t) as [[ctx|error] t'].
    + reflexivity.
    + unfold AudioReview.onAudioError.
      destruct (String.eqb (err_name error) "CancellationError"); reflexivity.
Qed.

Lemma audioPhase_extends (cmd : Command) (w : World) (runConfig : Config) (t : Trace) :
  exists more,
    snd (audioPhase cmd w runConfig t) = t ++ acquisitionEvents cmd runConfig ++ more /\
    (more = [] \/ exists audioFilePath options, more = [EvTranscribeAudio audioFilePath options]).
Proof.
  rewrite audioPhase_steps. cbv zeta.
  destruct (processAudio w _ _) as [[|[|] reported]|error]; simpl;
    try (exists []; rewrite app_nil_r; split; [reflexivity|left; reflexivity]).
  eexists [_]. split.
  - destruct (transcribeAudio w _ _ _); simpl; rewrite app_assoc3; reflexivity.
  - right. eauto.
Qed.

(** ** The countdown *)

Lemma startsCountdown_spec (cmd : Command) (runConfig : Config) :
  startsCountdown cmd runConfig = true <->
  Js.truthy (fileOption cmd runConfig) = false /\
  exists seconds, maxRecordingTimeOption cmd runConfig = Some seconds /\ 0 < seconds.
Proof.
  unfold startsCountdown, Js.isPositive. split.
  - intros H. apply andb_prop in H as [Hf Hp]. apply negb_true_iff in Hf.
    split; [exact Hf|]. destruct (maxRecordingTimeOption cmd runConfig) as [n|]; [|discriminate].
    exists n. split; [reflexivity|]. apply andb_prop in Hp as [_ Hp]. lia.
  - intros [Hf (n & Hn & Hpos)]. rewrite Hf, Hn. simpl.
    apply andb_true_intro. split; [apply negb_true_iff|]; lia.
Qed.

(** C6. In live single-file/recording mode the events the command adds to
    the trace start with the acquisition phase: when the command records
    (no file) with a positive [maxRecordingTime], a countdown is created and
    started, [processAudio] is called, and the countdown is stopped;
    otherwise [processAudio] is called alone.  Whatever [processAudio] does
    (returns, reports a cancellation, throws), the stop comes right after it,
    and nothing that follows touches a countdown: one creation and one stop
    when the countdown condition holds, none otherwise. *)
Theorem countdown_created_and_stopped_once
  (cmd : Command) (w : World) (runConfig : Config) (t : Trace) :
  singleFileLive cmd runConfig = true ->
  exists added rest,
    snd (run cmd w runConfig t) = t ++ added /\
    added =
      (if startsCountdown cmd runConfig
       then [EvCountdownCreate (default 0 (maxRecordingTimeOption cmd runConfig));
             EvCountdownStart;
             EvProcessAudio (audioOptions cmd runConfig);
             EvCountdownStop]
       else [EvProcessAudio (audioOptions cmd runConfig)]) ++ rest /\
    Forall (fun ev => isCountdown ev = false /\ isAcquisition ev = false) rest /\
    count isCountdownCreate added = (if startsCountdown cmd runConfig then 1 else 0)%nat /\
    count isCountdownStop added = (if startsCountdown cmd runConfig then 1 else 0)%nat /\
    (startsCountdown cmd runConfig = true <->
     Js.truthy (fileOption cmd runConfig) = false /\
     exists seconds, maxRecordingTimeOption cmd runConfig = Some seconds /\ 0 < seconds).
Proof.
  intros Hlive.
  assert (Hshape : exists rest,
    snd (run cmd w runConfig t) = t ++ acquisitionEvents cmd runConfig ++ rest /\
    Forall (fun ev => isCountdown ev = false /\ isAcquisition ev = false) rest).
  { rewrite (run_steps _ _ _ _ Hlive).
    destruct (audioPhase_extends cmd w runConfig t) as (more & Hsnd & Hmore).
    destruct (audioPhase cmd w runConfig t) as [[ctx|error] t']; simpl in Hsnd; subst t'.
    - eexists (more ++ [_]). simpl. rewrite !app_assoc3. split; [reflexivity|].
      apply Forall_app. split.
      + destruct Hmore as [->|(a & o & ->)]; repeat constructor.
      + destruct cmd; repeat constructor.
    - destruct (isCancellation cmd error); simpl.
      + exists more. split; [reflexivity|].
        destruct Hmore as [->|(a & o & ->)]; repeat constructor.
      + eexists (more ++ [_]). rewrite !app_assoc3. split; [reflexivity|].
        apply Forall_app. split.
        * destruct Hmore as [->|(a & o & ->)]; repeat constructor.
        * destruct cmd; repeat constructor. }
  destruct Hshape as (rest & Hsnd & Hrest).
  exists (acquisitionEvents cmd runConfig ++ rest), rest.
  split; [exact Hsnd|].
  assert (Hnone : forall p, (forall ev, p ev = true -> isCountdown ev = true) ->
                            List.filter p rest = []).
  { intros p Hp. clear Hsnd. induction Hrest as [|ev rest' [Hev _] _ IH]; [reflexivity|].
    simpl. destruct (p ev) eqn:Hpe; [|exact IH].
    apply Hp in Hpe. congruence. }
  assert (Hspec := startsCountdown_spec cmd runConfig).
  unfold acquisitionEvents, countdownBefore, countdownAfter, count.
  destruct (startsCountdown cmd runConfig); simpl.
  - rewrite !Hnone by (intros []; simpl; congruence).
    split; [reflexivity|]. split; [exact Hrest|]. split; [reflexivity|].
    split; [reflexivity|exact Hspec].
  - rewrite !Hnone by (intros []; simpl; congruence).
    split; [reflexivity|]. split; [exact Hrest|]. split; [reflexivity|].
    split; [reflexivity|exact Hspec].
Qed.

Lemma countdown_created_and_stopped_once_witness :
  let w := Example.world (Throws (new_Error "no microphone")) (Example.said "hello")
             (Returns "feat: voice") [] in
  let runConfig := Example.config (Example.recording 60) Example.noAudioReview in
  exists added rest,
    snd (run AudioCommitCmd w runConfig []) = [] ++ added /\
    added =
      (if startsCountdown AudioCommitCmd runConfig
       then [EvCountdownCreate (default 0 (maxRecordingTimeOption AudioCommitCmd runConfig));
             EvCountdownStart;
             EvProcessAudio (audioOptions AudioCommitCmd runConfig);
             EvCountdownStop]
       else [EvProcessAudio (audioOptions AudioCommitCmd runConfig)]) ++ rest /\
    Forall (fun ev => isCountdown ev = false /\ isAcquisition ev = false) rest /\
    count isCountdownCreate added
      = (if startsCountdown AudioCommitCmd runConfig then 1 else 0)%nat /\
    count isCountdownStop added
      = (if startsCountdown AudioCommitCmd runConfig then 1 else 0)%nat /\
    (startsCountdown AudioCommitCmd runConfig = true <->
     Js.truthy (fileOption AudioCommitCmd runConfig) = false /\
     exists seconds,
       maxRecordingTimeOption AudioCommitCmd runConfig = Some seconds /\ 0 < seconds).
Proof. intros w runConfig. apply countdown_created_and_stopped_once. reflexivity. Defined.

(** ** The audio path *)

(** C8. In live single-file/recording mode, once [processAudio] has returned
    a result that is not cancelled, [transcribeAudio] is called next, once,
    on the [file] option when it is set (a non-empty string); otherwise on
    the path [processAudio] reported when there is one (non-empty); otherwise
    on the timestamped filename joined under [outputDirectory], or under
    'output' when that is not set. *)
Theorem audio_path_priority
  (cmd : Command) (w : World) (runConfig : Config) (t : Trace) (reported : option string) :
  singleFileLive cmd runConfig = true ->
  processAudio w (t ++ countdownBefore cmd runConfig) (audioOptions cmd runConfig)
    = Returns (AudioObject false reported) ->
  exists audioFilePath rest,
    snd (run cmd w runConfig t)
      = t ++ acquisitionEvents cmd runConfig
          ++ [EvTranscribeAudio audioFilePath (transcribeOptions w runConfig)] ++ rest /\
    Forall (fun ev => isTranscription ev = false) rest /\
    (forall file, fileOption cmd runConfig = Some file -> file <> "" ->
       audioFilePath = file) /\
    (Js.truthy (fileOption cmd runConfig) = false ->
     forall path, reported = Some path -> path <> "" -> audioFilePath = path) /\
    (Js.truthy (fileOption cmd runConfig) = false -> Js.truthy reported = false ->
     audioFilePath =
       path_join w [match outputDirectory runConfig with
                    | Some dir => if String.eqb dir "" then "output" else dir
                    | None => "output"
                    end;
                    getTimestampedAudioFilename w (t ++ acquisitionEvents cmd runConfig)]).
Proof.
  intros Hlive Haudio.
  exists (resolvedAudioPath cmd w runConfig reported (t ++ acquisitionEvents cmd runConfig)).
  assert (Hrest : exists rest,
    snd (run cmd w runConfig t)
      = t ++ acquisitionEvents cmd runConfig
          ++ [EvTranscribeAudio
                (resolvedAudioPath cmd w runConfig reported
                   (t ++ acquisitionEvents cmd runConfig))
                (transcribeOptions w runConfig)] ++ rest /\
    Forall (fun ev => isTranscription ev = false) rest).
  { rewrite (run_steps _ _ _ _ Hlive), audioPhase_steps. cbv zeta. rewrite Haudio.
    destruct (transcribeAudio w _ _ _) as [transcription|error].
    - destruct (transcriptOf cmd w transcription) as [ctx|error].
      + eexists [_]. simpl. rewrite !app_assoc3. split; [reflexivity|].
        destruct cmd; repeat constructor.
      + destruct (isCancellation cmd error); simpl.
        * exists []. rewrite !app_assoc3. split; [reflexivity|constructor].
        * eexists [_]. rewrite !app_assoc3. split; [reflexivity|].
          destruct cmd; repeat constructor.
    - destruct (isCancellation cmd error); simpl.
      + exists []. rewrite !app_assoc3. split; [reflexivity|constructor].
      + eexists [_]. rewrite !app_assoc3. split; [reflexivity|].
        destruct cmd; repeat constructor. }
  destruct Hrest as (rest & Hsnd & Hrest). exists rest.
  split; [exact Hsnd|]. split; [exact Hrest|].
  unfold resolvedAudioPath, Js.truthy, Js.orElse, Js.nonEmpty.
  split; [|split].
  - intros file -> Hne. apply String.eqb_neq in Hne. rewrite Hne. reflexivity.
  - intros Hfile path -> Hne. unfold Js.truthy, Js.nonEmpty in Hfile. rewrite Hfile.
    apply String.eqb_neq in Hne. rewrite Hne. reflexivity.
  - intros Hfile Hrep. unfold Js.truthy, Js.nonEmpty in Hfile, Hrep. rewrite Hfile, Hrep.
    destruct (outputDirectory runConfig) as [dir|]; [|reflexivity].
    destruct (String.eqb dir ""); reflexivity.
Qed.

Lemma audio_path_priority_witness :
  let w := Example.world (Returns (AudioObject false None)) (Example.said "hello")
             (Returns "feat: voice") [] in
  let runConfig := Example.config (Example.recording 60) Example.noAudioReview in
  exists audioFilePath rest,
    snd (run AudioCommitCmd w runConfig [])
      = [] ++ acquisitionEvents AudioCommitCmd runConfig
          ++ [EvTranscribeAudio audioFilePath (transcribeOptions w runConfig)] ++ rest /\
    Forall (fun ev => isTranscription ev = false) rest /\
    (forall file, fileOption AudioCommitCmd runConfig = Some file -> file <> "" ->
       audioFilePath = file) /\
    (Js.truthy (fileOption AudioCommitCmd runConfig) = false ->
     forall path, None = Some path -> path <> "" -> audioFilePath = path) /\
    (Js.truthy (fileOption AudioCommitCmd runConfig) = false ->
     Js.truthy (@None string) = false ->
     audioFilePath =
       path_join w [match outputDirectory runConfig with
                    | Some dir => if String.eqb dir "" then "output" else dir
                    | None => "output"
                    end;
                    getTimestampedAudioFilename w
                      ([] ++ acquisitionEvents AudioCommitCmd runConfig)]).
Proof.
  intros w runConfig.
  apply (audio_path_priority AudioCommitCmd w runConfig [] None); reflexivity.
Defined.

Example generated_path_under_output :
  let w := Example.world (Returns (AudioObject false None)) (Example.said "hello")
             (Returns "feat: voice") [] in
  let runConfig := Example.config (Example.recording 60) Example.noAudioReview in
  List.filter isTranscription (snd (run AudioCommitCmd w runConfig []))
  = [EvTranscribeAudio "output/audio-20260110-120000.wav" (transcribeOptions w runConfig)].
Proof. vm_compute. reflexivity. Qed.

(** ** Failures of the audio phase *)

Lemma acquisition_failure_raises
  (cmd : Command) (w : World) (runConfig : Config) (t : Trace) (error : JsError) :
  processAudio w (t ++ countdownBefore cmd runConfig) (audioOptions cmd runConfig)
    = Throws error ->
  audioPhase cmd w runConfig t = (Throws error, t ++ acquisitionEvents cmd runConfig).
Proof. intros H. rewrite audioPhase_steps. cbv zeta. rewrite H. reflexivity. Qed.

Lemma transcription_failure_raises
  (cmd : Command) (w : World) (runConfig : Config) (t : Trace)
  (reported : option string) (error : JsError) :
  let t1 := t ++ acquisitionEvents cmd runConfig in
  let audioFilePath := resolvedAudioPath cmd w runConfig reported t1 in
  processAudio w (t ++ countdownBefore cmd runConfig) (audioOptions cmd runConfig)
    = Returns (AudioObject false reported) ->
  transcribeAudio w t1 audioFilePath (transcribeOptions w runConfig) = Throws error ->
  audioPhase cmd w runConfig t
    = (Throws error, t1 ++ [EvTranscribeAudio audioFilePath (transcribeOptions w runConfig)]).
Proof.
  intros t1 audioFilePath Ha Ht. rewrite audioPhase_steps. cbv zeta. rewrite Ha.
  fold t1. fold audioFilePath. rewrite Ht. reflexivity.
Qed.

(** A transcription of the wrong shape makes the audio phase throw, and what
    it throws is no cancellation. *)
Lemma invalid_shape_raises
  (cmd : Command) (w : World) (runConfig : Config) (t : Trace)
  (reported : option string) (transcription : Transcription) :
  let t1 := t ++ acquisitionEvents cmd runConfig in
  let audioFilePath := resolvedAudioPath cmd w runConfig reported t1 in
  processAudio w (t ++ countdownBefore cmd runConfig) (audioOptions cmd runConfig)
    = Returns (AudioObject false reported) ->
  transcribeAudio w t1 audioFilePath (transcribeOptions w runConfig)
    = Returns transcription ->
  validShape transcription = false ->
  audioPhase cmd w runConfig t
    = (Throws (shapeError cmd w),
       t1 ++ [EvTranscribeAudio audioFilePath (transcribeOptions w runConfig)]) /\
  isCancellation cmd (shapeError cmd w) = false.
Proof.
  intros t1 audioFilePath Ha Ht Hshape. split.
  - rewrite audioPhase_steps. cbv zeta. rewrite Ha. fold t1. fold audioFilePath. rewrite Ht.
    destruct transcription as [| |[| text |]]; try reflexivity. discriminate.
  - destruct cmd; reflexivity.
Qed.

(** A result without an object makes the audio phase throw a TypeError. *)
Lemma nullish_result_raises
  (cmd : Command) (w : World) (runConfig : Config) (t : Trace) :
  processAudio w (t ++ countdownBefore cmd runConfig) (audioOptions cmd runConfig)
    = Returns AudioNullish ->
  audioPhase cmd w runConfig t
    = (Throws (new_TypeError (typeErrorMessage w)), t ++ acquisitionEvents cmd runConfig) /\
  isCancellation cmd (new_TypeError (typeErrorMessage w)) = false.
Proof.
  intros H. split; [|destruct cmd; reflexivity].
  rewrite audioPhase_steps. cbv zeta. rewrite H. reflexivity.
Qed.

Lemma audioPhase_no_delegation (cmd : Command) (w : World) (runConfig : Config) (t : Trace) :
  exists added,
    snd (audioPhase cmd w runConfig t) = t ++ added /\
    Forall (fun ev => isDelegation ev = false) added.
Proof.
  destruct (audioPhase_extends cmd w runConfig t) as (more & Hsnd & Hmore).
  exists (acquisitionEvents cmd runConfig ++ more). split; [exact Hsnd|].
  apply Forall_app. split.
  - unfold acquisitionEvents, countdownBefore, countdownAfter.
    destruct (startsCountdown cmd runConfig); repeat constructor.
  - destruct Hmore as [->|(a & o & ->)]; repeat constructor.
Qed.

(** C1. In live single-file/recording mode, when the audio phase
    (acquisition, then transcription with its shape check) throws an error
    that the command does not take for a cancellation, the command catches
    it and calls the downstream command exactly once; the designated
    free-text field of the config it hands over ([commit.direction],
    [review.note]) is the value that field already had in the invocation
    config, and the empty string when it had none; the command ends as the
    downstream command ends, returning what it returns. *)
Theorem recoverable_failure_delegates_once
  (cmd : Command) (w : World) (runConfig : Config) (t t' : Trace) (error : JsError) :
  singleFileLive cmd runConfig = true ->
  audioPhase cmd w runConfig t = (Throws error, t') ->
  isCancellation cmd error = false ->
  exists added delegated,
    t' = t ++ added /\
    run cmd w runConfig t
      = (downstream cmd w t' delegated, t ++ added ++ [delegation cmd delegated]) /\
    count isDelegation (added ++ [delegation cmd delegated]) = 1%nat /\
    freeText cmd delegated = Some (default "" (freeText cmd runConfig)) /\
    (forall result,
       downstream cmd w t' delegated = Returns result ->
       fst (run cmd w runConfig t) = Returns result).
Proof.
  intros Hlive Hphase Hnc.
  destruct (audioPhase_no_delegation cmd w runConfig t) as (added & Hsnd & Hadded).
  rewrite Hphase in Hsnd. simpl in Hsnd.
  exists added, (delegatedConfig cmd runConfig "").
  assert (Hrun : run cmd w runConfig t
                 = (downstream cmd w t' (delegatedConfig cmd runConfig ""),
                    t ++ added ++ [delegation cmd (delegatedConfig cmd runConfig "")])).
  { rewrite (run_steps _ _ _ _ Hlive), Hphase, Hnc. cbv zeta.
    rewrite Hsnd, app_assoc3. reflexivity. }
  split; [exact Hsnd|]. split; [exact Hrun|]. split; [|split].
  - unfold count. rewrite List.filter_app, List.length_app.
    replace (List.filter isDelegation added) with (@nil Event).
    + destruct cmd; reflexivity.
    + clear -Hadded. induction Hadded as [|ev l Hev _ IH]; [reflexivity|].
      simpl. rewrite Hev. exact IH.
  - destruct cmd; simpl.
    + unfold Js.orElse, Js.nonEmpty. simpl.
      destruct (commit runConfig ≫= cm_direction) as [text|]; [|reflexivity].
      simpl. destruct (String.eqb text "") eqn:He; [|reflexivity].
      apply String.eqb_eq in He. subst. reflexivity.
    + unfold AudioReview.resolvedNote, Js.orElse, Js.nonEmpty. simpl.
      destruct (review runConfig ≫= rv_note) as [text|]; [|reflexivity].
      simpl. destruct (String.eqb text "") eqn:He; [|reflexivity].
      apply String.eqb_eq in He. subst. reflexivity.
  - intros result Hresult. rewrite Hrun. exact Hresult.
Qed.

Lemma recoverable_failure_delegates_once_witness :
  let w := Example.world (Example.recorded "/tmp/test.wav") (Returns TranscriptionPrimitive)
             (Returns "Mock commit message generated") [] in
  let runConfig := Example.config (Example.fromFile "/path/to/audio.wav") Example.noAudioReview in
  let t' := snd (audioPhase AudioCommitCmd w runConfig []) in
  exists added delegated,
    t' = [] ++ added /\
    run AudioCommitCmd w runConfig []
      = (downstream AudioCommitCmd w t' delegated,
         [] ++ added ++ [delegation AudioCommitCmd delegated]) /\
    count isDelegation (added ++ [delegation AudioCommitCmd delegated]) = 1%nat /\
    freeText AudioCommitCmd delegated
      = Some (default "" (freeText AudioCommitCmd runConfig)) /\
    (forall result,
       downstream AudioCommitCmd w t' delegated = Returns result ->
       fst (run AudioCommitCmd w runConfig []) = Returns result).
Proof.
  intros w runConfig t'.
  apply (recoverable_failure_delegates_once AudioCommitCmd w runConfig [] t'
           (shapeError AudioCommitCmd w)); reflexivity.
Defined.

Example transcription_mock_falls_back :
  let w := Example.world (Example.recorded "/tmp/test.wav") (Returns TranscriptionPrimitive)
             (Returns "Mock commit message generated") [] in
  let runConfig := Example.config (Example.fromFile "/path/to/audio.wav") Example.noAudioReview in
  fst (run AudioCommitCmd w runConfig []) = Returns "Mock commit message generated" /\
  List.filter isDelegation (snd (run AudioCommitCmd w runConfig []))
  = [EvCommit (with_commit runConfig {| cm_direction := Some ""; cm_rest := ∅ |})].
Proof. split; reflexivity. Qed.

(** ** Cancellation *)

(** Cancellations do not all reach the caller unchanged.  In the commit, a
    cancellation of the older class raised by the acquisition does not reach
    the caller as it was raised: the caller gets a fresh
    [UserCancellationError] with the same message. *)
Lemma old_cancellation_is_converted :
  let w := Example.world (Throws oldCancellation) (Example.said "hello")
             (Returns "feat: voice") [] in
  let runConfig := Example.config Example.noAudioCommit Example.noAudioReview in
  singleFileLive AudioCommitCmd runConfig = true /\
  processAudio w [] (audioOptions AudioCommitCmd runConfig) = Throws oldCancellation /\
  isCancellation AudioCommitCmd oldCancellation = true /\
  fst (run AudioCommitCmd w runConfig [])
    = Throws (new_UserCancellationError w "Recording cancelled") /\
  fst (run AudioCommitCmd w runConfig []) <> Throws oldCancellation.
Proof.
  intros w runConfig. repeat split. intros H. vm_compute in H. discriminate H.
Qed.

(** C2 (amended). In live single-file/recording mode:
    - when the audio phase throws an error that the command takes for a
      cancellation (the commit: an instance of [UserCancellationError] or of
      [CancellationError], or an error named 'CancellationError'; the
      review: an error named 'CancellationError'), the command throws a
      cancellation and no downstream call is made; what it throws is the
      error itself in the review and, in the commit, for a
      [UserCancellationError]; for a cancellation of the older class the
      commit throws a new [UserCancellationError] with the same message;
    - when [processAudio] returns a cancelled result, the command throws its
      own cancellation right after the acquisition phase, and no
      transcription or downstream call is made (for the review, given that
      the shared [CancellationError] names its instances
      'CancellationError'). *)
Theorem cancellation_aborts_before_delegation
  (cmd : Command) (w : World) (runConfig : Config) (t : Trace) :
  singleFileLive cmd runConfig = true ->
  (cmd = AudioReviewCmd -> CancellationError_name w = "CancellationError") ->
  (forall error t',
     audioPhase cmd w runConfig t = (Throws error, t') ->
     isCancellation cmd error = true ->
     run cmd w runConfig t = (Throws (propagated cmd w error), t') /\
     isCancellation cmd (propagated cmd w error) = true /\
     err_message (propagated cmd w error) = err_message error /\
     (cmd = AudioReviewCmd \/ err_isUserCancellationError error = true ->
      propagated cmd w error = error) /\
     (cmd = AudioCommitCmd -> err_isUserCancellationError error = false ->
      propagated cmd w error = new_UserCancellationError w (err_message error)) /\
     exists added, t' = t ++ added /\ Forall (fun ev => isDelegation ev = false) added) /\
  (forall reported,
     processAudio w (t ++ countdownBefore cmd runConfig) (audioOptions cmd runConfig)
       = Returns (AudioObject true reported) ->
     run cmd w runConfig t
       = (Throws (cancelledError cmd w), t ++ acquisitionEvents cmd runConfig) /\
     isCancellation cmd (cancelledError cmd w) = true /\
     Forall (fun ev => isDelegation ev = false /\ isTranscription ev = false)
       (acquisitionEvents cmd runConfig)).
Proof.
  intros Hlive Hname. split.
  - intros error t' Hphase Hc. split; [|split; [|split; [|split; [|split]]]].
    + rewrite (run_steps _ _ _ _ Hlive), Hphase, Hc. reflexivity.
    + destruct cmd; simpl in *; [|exact Hc].
      destruct (err_isUserCancellationError error) eqn:Hu; [rewrite Hu; reflexivity|reflexivity].
    + destruct cmd; simpl; [|reflexivity].
      destruct (err_isUserCancellationError error); reflexivity.
    + intros [->|Hu]; [reflexivity|]. destruct cmd; simpl; [|reflexivity].
      rewrite Hu. reflexivity.
    + intros -> Hu. simpl. rewrite Hu. reflexivity.
    + destruct (audioPhase_no_delegation cmd w runConfig t) as (added & Hsnd & Hadded).
      rewrite Hphase in Hsnd. exists added. split; [exact Hsnd|exact Hadded].
  - intros reported Haudio.
    assert (Hc : isCancellation cmd (cancelledError cmd w) = true).
    { destruct cmd; simpl; [reflexivity|]. rewrite (Hname eq_refl). reflexivity. }
    split; [|split; [exact Hc|]].
    + rewrite (run_steps _ _ _ _ Hlive), audioPhase_steps. cbv zeta. rewrite Haudio, Hc.
      destruct cmd; simpl; [reflexivity|]. reflexivity.
    + unfold acquisitionEvents, countdownBefore, countdownAfter.
      destruct (startsCountdown cmd runConfig); repeat constructor.
Qed.

Lemma cancellation_aborts_before_delegation_witness :
  let cmd := AudioReviewCmd in
  let w := Example.world (Returns (AudioObject true None)) (Example.said "hello")
             (Returns "Mock review generated") [] in
  let runConfig := Example.config Example.noAudioCommit Example.noAudioReview in
  (forall error t',
     audioPhase cmd w runConfig [] = (Throws error, t') ->
     isCancellation cmd error = true ->
     run cmd w runConfig [] = (Throws (propagated cmd w error), t') /\
     isCancellation cmd (propagated cmd w error) = true /\
     err_message (propagated cmd w error) = err_message error /\
     (cmd = AudioReviewCmd \/ err_isUserCancellationError error = true ->
      propagated cmd w error = error) /\
     (cmd = AudioCommitCmd -> err_isUserCancellationError error = false ->
      propagated cmd w error = new_UserCancellationError w (err_message error)) /\
     exists added, t' = [] ++ added /\ Forall (fun ev => isDelegation ev = false) added) /\
  (forall reported,
     processAudio w ([] ++ countdownBefore cmd runConfig) (audioOptions cmd runConfig)
       = Returns (AudioObject true reported) ->
     run cmd w runConfig []
       = (Throws (cancelledError cmd w), [] ++ acquisitionEvents cmd runConfig) /\
     isCancellation cmd (cancelledError cmd w) = true /\
     Forall (fun ev => isDelegation ev = false /\ isTranscription ev = false)
       (acquisitionEvents cmd runConfig)).
Proof.
  intros cmd w runConfig.
  apply (cancellation_aborts_before_delegation AudioReviewCmd w runConfig []);
    [reflexivity | intros _; reflexivity].
Defined.

Example cancelled_recording_aborts_commit :
  let w := Example.world (Returns (AudioObject true None)) (Example.said "hello")
             (Returns "feat: voice") [] in
  let runConfig := Example.config Example.noAudioCommit Example.noAudioReview in
  run AudioCommitCmd w runConfig []
  = (Throws (new_UserCancellationError w "Audio commit cancelled by user"),
     [EvProcessAudio (audioOptions AudioCommitCmd runConfig)]).
Proof. reflexivity. Qed.

(** ** The batch, file by file *)

(** What [processSingleAudioFile] does, case by case. *)
Lemma processSingleAudioFile_steps
  (w : World) (audioFilePath : string) (runConfig : Config) (t : Trace) :
  AudioReview.processSingleAudioFile w audioFilePath runConfig t =
  let options := transcribeOptions w runConfig in
  let t1 := t ++ [EvTranscribeAudio audioFilePath options] in
  match transcribeAudio w t audioFilePath options with
  | Throws error => (Returns (AudioReview.failureOutcome w audioFilePath error), t1)
  | Returns (TranscriptionObject (TextString text)) =>
      if Js.nonEmpty (Js.trim text) then
        let delegated :=
          with_review runConfig (AudioReview.reviewBlock runConfig (AudioReview.batchNote w audioFilePath text)) in
        (match executeReview w t1 delegated with
         | Returns result => Returns result
         | Throws error => Returns (AudioReview.failureOutcome w audioFilePath error)
         end, t1 ++ [EvReview delegated])
      else (Returns "", t1)
  | Returns _ =>
      (Returns (AudioReview.failureOutcome w audioFilePath (new_Error AudioReview.invalidTranscription)), t1)
  end.
Proof.
  unfold AudioReview.processSingleAudioFile, AudioReview.validText. unfold_cmd.
  destruct (transcribeAudio w t audioFilePath _) as [[| |[| text |]]|error]; try reflexivity.
  destruct (Js.nonEmpty (Js.trim text)); simpl; [|reflexivity].
  destruct (executeReview w _ _); reflexivity.
Qed.

(** ** The per-file pipeline against the single-file pipeline *)

(** The per-file code of the batch is not the single-file algorithm.  On a
    file whose transcript is blank, it calls the transcription alone and
    returns the empty content, where the single-file algorithm calls the acquisition, the transcription and the
    delegation; on a file with a transcript, the batch still calls no
    acquisition, and the note it hands over is not the bare transcript. *)
Lemma batch_file_differs_from_single_file :
  let w := Example.world (Example.recorded "/recs/a.wav") (Example.said "   ")
             (Returns "Mock review generated") ["a.wav"] in
  let w' := Example.world (Example.recorded "/recs/a.wav") (Example.said "fix the parser")
             (Returns "Mock review generated") ["a.wav"] in
  let runConfig := Example.config Example.noAudioCommit (Example.reviewDirectory "/recs") in
  map kindOf (snd (AudioReview.processSingleAudioFile w "/recs/a.wav" runConfig []))
    = [TranscriptionCall] /\
  map kindOf (snd (perFileAsSpecified w "/recs/a.wav" runConfig []))
    = [Acquisition; TranscriptionCall; Delegation] /\
  AudioReview.processSingleAudioFile w "/recs/a.wav" runConfig []
    <> perFileAsSpecified w "/recs/a.wav" runConfig [] /\
  map kindOf (snd (AudioReview.processSingleAudioFile w' "/recs/a.wav" runConfig []))
    = [TranscriptionCall; Delegation] /\
  map (freeText AudioReviewCmd)
    (omap (fun ev => match ev with EvReview c => Some c | _ => None end)
       (snd (AudioReview.processSingleAudioFile w' "/recs/a.wav" runConfig [])))
    = [Some ("Audio Review from a.wav:" +:+ Js.nl +:+ Js.nl +:+ "fix the parser")] /\
  map (freeText AudioReviewCmd)
    (omap (fun ev => match ev with EvReview c => Some c | _ => None end)
       (snd (perFileAsSpecified w' "/recs/a.wav" runConfig [])))
    = [Some "fix the parser"].
Proof.
  intros w w' runConfig. repeat split; try (vm_compute; reflexivity).
  intros H. apply (f_equal snd) in H. apply (f_equal (map kindOf)) in H.
  vm_compute in H. discriminate H.
Qed.

(** C4 (amended). The per-file code of the batch calls no acquisition.  It
    calls [transcribeAudio] on the discovered path, with the options of the
    single-file flow, and applies the same shape check.  A transcript that
    is blank after trimming gives the empty content, without a downstream
    call.  Any other transcript is handed to [review] once, in a config that
    carries the ten mapped options and the note
    'Audio Review from <basename>:', an empty line, and the trimmed
    transcript.  A failure of the transcription, of the shape check or of the
    review is caught and becomes the content
    'Failed to process <basename>: <message>'; the call itself returns. *)
Theorem batch_file_pipeline
  (w : World) (audioFilePath : string) (runConfig : Config) (t : Trace) :
  let options := transcribeOptions w runConfig in
  let t1 := t ++ [EvTranscribeAudio audioFilePath options] in
  let failed error :=
    "Failed to process " +:+ path_basename w audioFilePath +:+ ": " +:+ err_message error in
  (forall error,
     transcribeAudio w t audioFilePath options = Throws error ->
     AudioReview.processSingleAudioFile w audioFilePath runConfig t
       = (Returns (failed error), t1)) /\
  (forall transcription,
     transcribeAudio w t audioFilePath options = Returns transcription ->
     validShape transcription = false ->
     AudioReview.processSingleAudioFile w audioFilePath runConfig t
       = (Returns (failed (new_Error AudioReview.invalidTranscription)), t1)) /\
  (forall text,
     transcribeAudio w t audioFilePath options
       = Returns (TranscriptionObject (TextString text)) ->
     Js.trim text = "" ->
     AudioReview.processSingleAudioFile w audioFilePath runConfig t = (Returns "", t1)) /\
  (forall text,
     transcribeAudio w t audioFilePath options
       = Returns (TranscriptionObject (TextString text)) ->
     Js.trim text <> "" ->
     let note :=
       "Audio Review from " +:+ path_basename w audioFilePath +:+ ":" +:+ Js.nl +:+ Js.nl
         +:+ Js.trim text in
     let delegated := with_review runConfig (AudioReview.reviewBlock runConfig note) in
     AudioReview.processSingleAudioFile w audioFilePath runConfig t
       = (match executeReview w t1 delegated with
          | Returns result => Returns result
          | Throws error => Returns (failed error)
          end, t1 ++ [EvReview delegated])).
Proof.
  cbv zeta. repeat split.
  - intros error H. rewrite processSingleAudioFile_steps. cbv zeta. rewrite H. reflexivity.
  - intros transcription H Hshape. rewrite processSingleAudioFile_steps. cbv zeta. rewrite H.
    destruct transcription as [| |[| text |]]; try reflexivity. discriminate.
  - intros text H Hblank. rewrite processSingleAudioFile_steps. cbv zeta. rewrite H.
    unfold Js.nonEmpty. rewrite Hblank. reflexivity.
  - intros text H Hsaid. rewrite processSingleAudioFile_steps. cbv zeta. rewrite H.
    unfold Js.nonEmpty. apply String.eqb_neq in Hsaid. rewrite Hsaid. reflexivity.
Qed.

Lemma batch_file_pipeline_witness :
  let w := Example.world (Example.recorded "/recs/a.wav") (Example.said " fix the parser ")
             (Throws (new_Error "rate limited")) ["a.wav"] in
  let runConfig := Example.config Example.noAudioCommit (Example.reviewDirectory "/recs") in
  let options := transcribeOptions w runConfig in
  let note := "Audio Review from a.wav:" +:+ Js.nl +:+ Js.nl +:+ "fix the parser" in
  AudioReview.processSingleAudioFile w "/recs/a.wav" runConfig []
  = (Returns "Failed to process a.wav: rate limited",
     [EvTranscribeAudio "/recs/a.wav" options;
      EvReview (with_review runConfig (AudioReview.reviewBlock runConfig note))]).
Proof.
  intros w runConfig options note.
  pose proof (batch_file_pipeline w "/recs/a.wav" runConfig []) as H.
  cbv zeta in H. destruct H as (_ & _ & _ & H).
  apply (H " fix the parser "); [reflexivity | discriminate].
Defined.

(** ** The batch as a whole *)

Lemma processSingleAudioFile_outcome
  (w : World) (audioFile : string) (runConfig : Config) (t : Trace) :
  exists content t1,
    AudioReview.processSingleAudioFile w audioFile runConfig t = (Returns content, t1) /\
    FileOutcome w runConfig audioFile t content t1.
Proof.
  rewrite processSingleAudioFile_steps. cbv zeta.
  destruct (transcribeAudio w t audioFile _) as [transcription|error] eqn:Htr.
  - destruct (validShape transcription) eqn:Hshape.
    + destruct transcription as [| |[| text |]]; try discriminate.
      destruct (Js.nonEmpty (Js.trim text)) eqn:Hsaid.
      * assert (Hne : Js.trim text <> "").
        { unfold Js.nonEmpty in Hsaid. apply negb_true_iff in Hsaid.
          apply String.eqb_neq. exact Hsaid. }
        destruct (executeReview w _ _) as [result|error] eqn:Hrv.
        -- do 2 eexists. split; [reflexivity|]. rewrite app_assoc3.
           eapply Reviewed; eauto.
        -- do 2 eexists. split; [reflexivity|]. rewrite app_assoc3.
           eapply ReviewFailed; eauto.
      * do 2 eexists. split; [reflexivity|]. eapply BlankTranscript; eauto.
        unfold Js.nonEmpty in Hsaid. apply negb_false_iff in Hsaid.
        apply String.eqb_eq. exact Hsaid.
    + exists (AudioReview.failureOutcome w audioFile (new_Error AudioReview.invalidTranscription)).
      eexists. split.
      * destruct transcription as [| |[| text |]]; try reflexivity. discriminate.
      * eapply ShapeRejected; eauto.
  - do 2 eexists. split; [reflexivity|]. eapply TranscriptionFailed; eauto.
Qed.

Lemma processEach_outcome
  (w : World) (runConfig : Config) (audioFiles : list string) (t : Trace) :
  exists sections t',
    AudioReview.processEach w runConfig audioFiles t = (Returns sections, t') /\
    BatchOutcome w runConfig t audioFiles sections t'.
Proof.
  revert t. induction audioFiles as [|audioFile more IH]; intros t.
  - exists [], t. split; [reflexivity|constructor].
  - destruct (processSingleAudioFile_outcome w audioFile runConfig t)
      as (content & t1 & Hrun & Hout).
    destruct (IH t1) as (sections & t2 & Hrest & Hbatch).
    exists (AudioReview.fileSection w audioFile content :: sections), t2. split.
    + simpl. unfold_cmd. rewrite Hrun, Hrest. reflexivity.
    + eapply BatchNext; eauto.
Qed.

Lemma FileOutcome_trace
  (w : World) (runConfig : Config) (audioFile content : string) (t t1 : Trace) :
  FileOutcome w runConfig audioFile t content t1 ->
  exists added, t1 = t ++ added /\ transcribedPaths added = [audioFile].
Proof. intros H. destruct H; eexists; split; reflexivity. Qed.

Lemma BatchOutcome_trace
  (w : World) (runConfig : Config) (audioFiles sections : list string) (t t' : Trace) :
  BatchOutcome w runConfig t audioFiles sections t' ->
  length sections = length audioFiles /\
  exists added, t' = t ++ added /\ transcribedPaths added = audioFiles.
Proof.
  induction 1 as [t|t t1 t2 audioFile content more sections Hfile _ [IHlen (added & -> & IH)]].
  - split; [reflexivity|]. exists []. rewrite app_nil_r. split; reflexivity.
  - split; [simpl; congruence|].
    destruct (FileOutcome_trace _ _ _ _ _ _ Hfile) as (first & -> & Hfirst).
    exists (first ++ added). rewrite app_assoc3. split; [reflexivity|].
    unfold transcribedPaths in *. rewrite omap_app, Hfirst, IH. reflexivity.
Qed.

(** C3. In batch mode (no dry run, a directory option), once the discovery
    has returned a non-empty list of files, the command returns, without
    throwing, a report made of the header with the number of files and of one
    section per discovered file, in the order of discovery, separated by
    rules.  Every file is transcribed, each on the trace left by the file
    before it; a file whose transcription throws, is of the wrong shape, or
    whose review throws (any error, a cancellation too) contributes the
    section 'File: <basename>' with the content
    'Failed to process <basename>: <message>', and the files after it are
    processed all the same. *)
Theorem batch_isolates_failures
  (w : World) (runConfig : Config) (directory : string) (audioFiles : list string)
  (t t0 : Trace) :
  Js.orFalse (dryRun runConfig) = false ->
  audioReview runConfig ≫= ar_directory = Some directory ->
  directory <> "" ->
  AudioReview.discoverAudioFiles w directory t = (Returns audioFiles, t0) ->
  audioFiles <> [] ->
  exists sections added,
    AudioReview.execute w runConfig t
      = (Returns ("Batch Audio Review Results (" +:+ Js.ofNat (length audioFiles)
                    +:+ " files):" +:+ Js.nl +:+ Js.nl
                    +:+ Js.join (Js.nl +:+ Js.nl +:+ "---" +:+ Js.nl +:+ Js.nl) sections),
         t0 ++ added) /\
    BatchOutcome w runConfig t0 audioFiles sections (t0 ++ added) /\
    length sections = length audioFiles /\
    transcribedPaths added = audioFiles.
Proof.
  intros Hdry Hdir Hne Hdisc Hfiles.
  destruct (processEach_outcome w runConfig audioFiles t0) as (sections & t' & Hrun & Hbatch).
  destruct (BatchOutcome_trace _ _ _ _ _ _ Hbatch) as (Hlen & added & -> & Hpaths).
  exists sections, added. split; [|auto].
  unfold AudioReview.execute. rewrite Hdry, Hdir. unfold Js.truthy, Js.nonEmpty.
  apply String.eqb_neq in Hne. rewrite Hne. simpl.
  unfold AudioReview.batch. unfold_cmd. rewrite Hdisc.
  destruct audioFiles as [|audioFile more]; [congruence|].
  cbn [length Nat.eqb]. rewrite Hrun.
  unfold AudioReview.batchHeader, AudioReview.batchSeparator.
  rewrite !append_assoc. reflexivity.
Qed.

Lemma batch_isolates_failures_witness :
  let w := Example.batchWorld Example.secondFails (Returns "Mock review generated")
             ["b.wav"; "a.mp3"; "notes.txt"] in
  let runConfig := Example.config Example.noAudioCommit (Example.reviewDirectory "/recs") in
  let audioFiles := ["/recs/a.mp3"; "/recs/b.wav"] in
  let t0 := [EvIsDirectoryReadable "/recs"; EvListFiles "/recs"] in
  exists sections added,
    AudioReview.execute w runConfig []
      = (Returns ("Batch Audio Review Results (" +:+ Js.ofNat (length audioFiles)
                    +:+ " files):" +:+ Js.nl +:+ Js.nl
                    +:+ Js.join (Js.nl +:+ Js.nl +:+ "---" +:+ Js.nl +:+ Js.nl) sections),
         t0 ++ added) /\
    BatchOutcome w runConfig t0 audioFiles sections (t0 ++ added) /\
    length sections = length audioFiles /\
    transcribedPaths added = audioFiles.
Proof.
  intros w runConfig audioFiles t0.
  apply (batch_isolates_failures w runConfig "/recs" audioFiles [] t0);
    [reflexivity | reflexivity | discriminate | vm_compute; reflexivity | discriminate].
Defined.

Example second_file_fails_first_is_reviewed :
  let w := Example.batchWorld Example.secondFails (Returns "Mock review generated")
             ["b.wav"; "a.mp3"; "notes.txt"] in
  let runConfig := Example.config Example.noAudioCommit (Example.reviewDirectory "/recs") in
  fst (AudioReview.execute w runConfig [])
  = Returns ("Batch Audio Review Results (2 files):" +:+ Js.nl +:+ Js.nl
             +:+ "File: a.mp3" +:+ Js.nl +:+ "Mock review generated"
             +:+ Js.nl +:+ Js.nl +:+ "---" +:+ Js.nl +:+ Js.nl
             +:+ "File: b.wav" +:+ Js.nl +:+ "Failed to process b.wav: corrupt file").
Proof. vm_compute. reflexivity. Qed.

(** ** What the downstream command is handed *)

Lemma builtFrom_framed (cmd : Command) (runConfig : Config) (ev : Event) :
  builtFrom cmd runConfig ev -> isDelegation ev = true ->
  exists delegated, ev = delegation cmd delegated /\ framed cmd runConfig delegated.
Proof.
  intros [Hno|Hbuilt] Hd; [congruence|].
  destruct cmd.
  - destruct Hbuilt as (ctx & ->). eexists. split; [reflexivity|].
    unfold framed; simpl. repeat split. eexists. repeat split. discriminate.
  - destruct Hbuilt as (note & ->). eexists. split; [reflexivity|].
    unfold framed; simpl. repeat split. eexists. repeat split. discriminate.
Qed.

Lemma discoverAudioFiles_events (w : World) (directory : string) (t : Trace) :
  exists added,
    snd (AudioReview.discoverAudioFiles w directory t) = t ++ added /\
    Forall (fun ev => isDelegation ev = false) added.
Proof.
  unfold AudioReview.discoverAudioFiles. unfold_cmd.
  destruct (isDirectoryReadable w t directory) as [[|]|error]; simpl.
  - destruct (listFiles w _ directory); simpl; eexists [_; _]; rewrite app_assoc3;
      (split; [reflexivity|repeat constructor]).
  - eexists [_]. split; [reflexivity|repeat constructor].
  - eexists [_]. split; [reflexivity|repeat constructor].
Qed.

Lemma BatchOutcome_builtFrom
  (w : World) (runConfig : Config) (audioFiles sections : list string) (t t' : Trace) :
  BatchOutcome w runConfig t audioFiles sections t' ->
  exists added, t' = t ++ added /\ Forall (builtFrom AudioReviewCmd runConfig) added.
Proof.
  induction 1 as [t|t t1 t2 audioFile content more sections Hfile _ (added & -> & IH)].
  - exists []. rewrite app_nil_r. split; [reflexivity|constructor].
  - assert (Hfirst : exists first,
      t1 = t ++ first /\ Forall (builtFrom AudioReviewCmd runConfig) first).
    { destruct Hfile; subst; eexists; (split; [reflexivity|]);
        repeat (constructor 2;
                [first [left; reflexivity | right; eexists; reflexivity]|]);
        constructor 1. }
    destruct Hfirst as (first & -> & Hfirst).
    exists (first ++ added). rewrite app_assoc3. split; [reflexivity|].
    apply Forall_app. split; assumption.
Qed.

Lemma batch_events (w : World) (runConfig : Config) (directory : string) (t : Trace) :
  exists added,
    snd (AudioReview.batch w runConfig directory t) = t ++ added /\
    Forall (builtFrom AudioReviewCmd runConfig) added.
Proof.
  destruct (discoverAudioFiles_events w directory t) as (found & Hfound & Hnone).
  assert (Hfound' : Forall (builtFrom AudioReviewCmd runConfig) found).
  { eapply Forall_impl; [exact Hnone|]. intros ev Hev. left. exact Hev. }
  unfold AudioReview.batch. unfold_cmd.
  destruct (AudioReview.discoverAudioFiles w directory t) as [[audioFiles|error] t0];
    simpl in Hfound; subst t0.
  - destruct (length audioFiles =? 0)%nat.
    + exists found. split; [reflexivity|exact Hfound'].
    + destruct (processEach_outcome w runConfig audioFiles (t ++ found))
        as (sections & t' & Hrun & Hbatch).
      rewrite Hrun. simpl.
      destruct (BatchOutcome_builtFrom _ _ _ _ _ _ Hbatch) as (added & -> & Hadded).
      exists (found ++ added). rewrite app_assoc3. split; [reflexivity|].
      apply Forall_app. split; assumption.
  - exists found. split; [reflexivity|exact Hfound'].
Qed.

Lemma run_events (cmd : Command) (w : World) (runConfig : Config) (t : Trace) :
  exists added,
    snd (run cmd w runConfig t) = t ++ added /\
    Forall (builtFrom cmd runConfig) added.
Proof.
  destruct (singleFileLive cmd runConfig) eqn:Hlive.
  - rewrite (run_steps _ _ _ _ Hlive).
    destruct (audioPhase_no_delegation cmd w runConfig t) as (added & Hsnd & Hadded).
    assert (Hadded' : Forall (builtFrom cmd runConfig) added).
    { eapply Forall_impl; [exact Hadded|]. intros ev Hev. left. exact Hev. }
    assert (Hlast : forall ctx,
      Forall (builtFrom cmd runConfig)
        (added ++ [delegation cmd (delegatedConfig cmd runConfig ctx)])).
    { intros ctx. apply Forall_app. split; [exact Hadded'|].
      constructor 2; [|constructor 1]. right. destruct cmd; eexists; reflexivity. }
    destruct (audioPhase cmd w runConfig t) as [[ctx|error] t']; simpl in Hsnd; subst t'.
    + eexists. cbv zeta. simpl. rewrite app_assoc3. split; [reflexivity|apply Hlast].
    + destruct (isCancellation cmd error); simpl.
      * exists added. split; [reflexivity|exact Hadded'].
      * eexists. rewrite app_assoc3. split; [reflexivity|apply Hlast].
  - unfold singleFileLive in Hlive. destruct cmd; simpl in *.
    + rewrite andb_true_r in Hlive. apply negb_false_iff in Hlive.
      unfold AudioCommit.execute, AudioCommit.executeInternal. rewrite Hlive.
      exists []. rewrite app_nil_r. split; [reflexivity|constructor].
    + unfold AudioReview.execute.
      destruct (Js.truthy (audioReview runConfig ≫= ar_directory)) eqn:Hdir.
      * destruct (Js.orFalse (dryRun runConfig)).
        -- exists []. rewrite app_nil_r. split; [reflexivity|constructor].
        -- apply batch_events.
      * simpl in Hlive. rewrite andb_true_r in Hlive. apply negb_false_iff in Hlive.
        rewrite Hlive. exists []. rewrite app_nil_r. split; [reflexivity|constructor].
Qed.

(** Not every field outside the mapped set is passed through.  The review
    does not carry the other properties of [runConfig.review] over: the block
    it hands over has none of them. *)
Lemma review_block_is_rebuilt :
  let w := Example.world (Example.recorded "/tmp/test.wav") (Example.said "fix the parser")
             (Returns "Mock review generated") [] in
  let runConfig :=
    with_review
      (Example.config Example.noAudioCommit (Example.reviewFromFile "/path/to/audio.wav"))
      reviewWithExtras in
  exists delegated block,
    List.filter isDelegation (snd (run AudioReviewCmd w runConfig [])) = [EvReview delegated] /\
    review delegated = Some block /\
    (review runConfig ≫= fun r => rv_rest r !! "maxContextErrors") = Some (JsNumber 5) /\
    rv_rest block !! "maxContextErrors" = None /\
    (review delegated ≫= fun r => Some (rv_rest r))
      <> (review runConfig ≫= fun r => Some (rv_rest r)).
Proof.
  intros w runConfig. do 2 eexists. split; [reflexivity|]. split; [reflexivity|].
  split; [reflexivity|]. split; [reflexivity|].
  intros H.
  apply (f_equal (fun o : option (gmap string JsValue) =>
                    o ≫= fun m => m !! "maxContextErrors")) in H.
  vm_compute in H. discriminate H.
Qed.

(** C9 (amended). Every downstream call a command makes, in single-file
    and in batch mode, hands over a config whose top-level fields other than
    the downstream block are those of the invocation config.  In the commit,
    the block keeps every property of [runConfig.commit] other than
    [direction], and [direction] is set.  In the review, the block is built
    anew: it holds the ten mapped options, each with the value it has in
    [runConfig.audioReview], and the note; the properties [runConfig.review]
    had are not carried over. *)
Theorem delegation_frame (cmd : Command) (w : World) (runConfig : Config) (t : Trace) :
  exists added,
    snd (run cmd w runConfig t) = t ++ added /\
    forall ev, In ev added -> isDelegation ev = true ->
      exists delegated,
        ev = delegation cmd delegated /\
        dryRun delegated = dryRun runConfig /\
        debug delegated = debug runConfig /\
        outputDirectory delegated = outputDirectory runConfig /\
        audioCommit delegated = audioCommit runConfig /\
        audioReview delegated = audioReview runConfig /\
        rest delegated = rest runConfig /\
        match cmd with
        | AudioCommitCmd =>
            review delegated = review runConfig /\
            exists block,
              commit delegated = Some block /\
              cm_direction block <> None /\
              cm_rest block = from_option cm_rest ∅ (commit runConfig)
        | AudioReviewCmd =>
            commit delegated = commit runConfig /\
            exists block,
              review delegated = Some block /\
              rv_includeCommitHistory block = audioReview runConfig ≫= ar_includeCommitHistory /\
              rv_includeRecentDiffs block = audioReview runConfig ≫= ar_includeRecentDiffs /\
              rv_includeReleaseNotes block = audioReview runConfig ≫= ar_includeReleaseNotes /\
              rv_includeGithubIssues block = audioReview runConfig ≫= ar_includeGithubIssues /\
              rv_commitHistoryLimit block = audioReview runConfig ≫= ar_commitHistoryLimit /\
              rv_diffHistoryLimit block = audioReview runConfig ≫= ar_diffHistoryLimit /\
              rv_releaseNotesLimit block = audioReview runConfig ≫= ar_releaseNotesLimit /\
              rv_githubIssuesLimit block = audioReview runConfig ≫= ar_githubIssuesLimit /\
              rv_sendit block = audioReview runConfig ≫= ar_sendit /\
              rv_context block = audioReview runConfig ≫= ar_context /\
              rv_note block <> None /\
              rv_rest block = ∅
        end.
Proof.
  destruct (run_events cmd w runConfig t) as (added & Hsnd & Hadded).
  exists added. split; [exact Hsnd|].
  intros ev Hin Hd. rewrite List.Forall_forall in Hadded.
  destruct (builtFrom_framed cmd runConfig ev (Hadded ev Hin) Hd) as (delegated & -> & Hf).
  exists delegated. split; [reflexivity|exact Hf].
Qed.

(** ** Discovery *)

Lemma arrayIncludes_In (arr : list string) (x : string) :
  Js.arrayIncludes arr x = true <-> In x arr.
Proof.
  unfold Js.arrayIncludes. rewrite List.existsb_exists. split.
  - intros (y & Hin & Heq). apply String.eqb_eq in Heq. subst. exact Hin.
  - intros Hin. exists x. split; [exact Hin|apply String.eqb_refl].
Qed.

(** C7. For a readable directory whose listing succeeds, the discovery
    returns the joined paths (directory joined with the entry name) of
    exactly the entries whose extension, lower-cased, is one of
    .wav .mp3 .m4a .aac .flac .ogg .wma; the other entries are left out, an
    entry listed several times is returned as many times, and the result is
    sorted lexicographically. *)
Theorem discovery_returns_sorted_audio_paths
  (w : World) (directory : string) (t : Trace) (names : list string) :
  isDirectoryReadable w t directory = Returns true ->
  listFiles w (t ++ [EvIsDirectoryReadable directory]) directory = Returns names ->
  exists paths,
    AudioReview.discoverAudioFiles w directory t
      = (Returns paths, t ++ [EvIsDirectoryReadable directory; EvListFiles directory]) /\
    StronglySorted String.le paths /\
    paths ≡ₚ
      map (fun name => path_join w [directory; name])
        (List.filter
           (fun name =>
              Js.arrayIncludes [".wav"; ".mp3"; ".m4a"; ".aac"; ".flac"; ".ogg"; ".wma"]
                (Js.toLowerCase (path_extname w name)))
           names) /\
    (forall path,
       In path paths <->
       exists name,
         In name names /\
         In (Js.toLowerCase (path_extname w name))
            [".wav"; ".mp3"; ".m4a"; ".aac"; ".flac"; ".ogg"; ".wma"] /\
         path = path_join w [directory; name]).
Proof.
  intros Hreadable Hlist.
  set (audio := List.filter (AudioReview.isAudioFile w) names).
  exists (Js.sort (map (fun name => path_join w [directory; name]) audio)).
  assert (Hperm : Js.sort (map (fun name => path_join w [directory; name]) audio)
                    ≡ₚ map (fun name => path_join w [directory; name]) audio).
  { apply merge_sort_Permutation. }
  split; [|split; [|split]].
  - unfold AudioReview.discoverAudioFiles. unfold_cmd. rewrite Hreadable. simpl.
    rewrite Hlist. simpl. rewrite app_assoc3. reflexivity.
  - apply StronglySorted_merge_sort; apply _.
  - exact Hperm.
  - intros path. split.
    + intros Hin. apply (Permutation_in _ Hperm) in Hin.
      apply List.in_map_iff in Hin as (name & <- & Hname).
      apply List.filter_In in Hname as [Hname Haudio].
      exists name. split; [exact Hname|]. split; [|reflexivity].
      apply arrayIncludes_In. exact Haudio.
    + intros (name & Hname & Hext & ->).
      apply (Permutation_in _ (Permutation_sym Hperm)).
      apply List.in_map_iff. exists name. split; [reflexivity|].
      apply List.filter_In. split; [exact Hname|].
      apply arrayIncludes_In. exact Hext.
Qed.

Lemma discovery_returns_sorted_audio_paths_witness :
  let w := Example.world (Returns AudioNullish) (Example.said "hello")
             (Returns "Mock review generated") ["b.wav"; "a.mp3"; "notes.txt"] in
  let names := ["b.wav"; "a.mp3"; "notes.txt"] in
  exists paths,
    AudioReview.discoverAudioFiles w "/recs" []
      = (Returns paths, [] ++ [EvIsDirectoryReadable "/recs"; EvListFiles "/recs"]) /\
    StronglySorted String.le paths /\
    paths ≡ₚ
      map (fun name => path_join w ["/recs"; name])
        (List.filter
           (fun name =>
              Js.arrayIncludes [".wav"; ".mp3"; ".m4a"; ".aac"; ".flac"; ".ogg"; ".wma"]
                (Js.toLowerCase (path_extname w name)))
           names) /\
    (forall path,
       In path paths <->
       exists name,
         In name names /\
         In (Js.toLowerCase (path_extname w name))
            [".wav"; ".mp3"; ".m4a"; ".aac"; ".flac"; ".ogg"; ".wma"] /\
         path = path_join w ["/recs"; name]).
Proof.
  intros w names.
  apply (discovery_returns_sorted_audio_paths w "/recs" [] names); reflexivity.
Defined.

Example discovery_of_three_entries :
  let w := Example.world (Returns AudioNullish) (Example.said "hello")
             (Returns "Mock review generated") ["b.wav"; "a.mp3"; "notes.txt"] in
  fst (AudioReview.discoverAudioFiles w "/recs" []) = Returns ["/recs/a.mp3"; "/recs/b.wav"].
Proof. vm_compute. reflexivity. Qed.

Example discovery_ignores_case :
  let w := Example.world (Returns AudioNullish) (Example.said "hello")
             (Returns "Mock review generated") ["Take2.WAV"; "take1.Mp3"; "README.md"; ".wav"] in
  fst (AudioReview.discoverAudioFiles w "/recs" [])
  = Returns ["/recs/Take2.WAV"; "/recs/take1.Mp3"].
Proof. vm_compute. reflexivity. Qed.

(** ** select-audio *)

Lemma prefix_append (p s : string) : String.prefix p (p +:+ s) = true.
Proof.
  induction p as [|c p IH]; [destruct s; reflexivity|].
  change (String c p +:+ s) with (String c (p +:+ s)). simpl.
  destruct (ascii_dec c c) as [_|Hne]; [exact IH|congruence].
Qed.

Lemma append_empty_r (s : string) : s +:+ "" = s.
Proof.
  induction s as [|c s IH]; [reflexivity|].
  change (String c (s +:+ "") = String c s). rewrite IH. reflexivity.
Qed.

(** C10. In a live run of select-audio, once the home directory is known,
    a throw of the device selection is never swallowed: the command throws a
    new [Error].  When the message of the collaborator's error contains
    'Failed to determine home directory', the new message is
    'Failed to determine home directory: ' followed by that message;
    otherwise it begins with 'Audio device selection failed: ' followed by
    that message (and is exactly that when the message is not empty). *)
Theorem select_audio_failure_is_raised
  (w : World) (runConfig : Config) (t : Trace) (home : string) (error : JsError) :
  Js.orFalse (dryRun runConfig) = false ->
  homedir w t = Returns home ->
  selectAndConfigureAudioDevice w (t ++ [EvHomedir])
    (path_join w [home; ".unplayable"]) (debug runConfig) = Throws error ->
  exists message,
    SelectAudio.execute w runConfig t
      = (Throws (new_Error message),
         t ++ [EvHomedir;
               EvSelectAndConfigureAudioDevice (path_join w [home; ".unplayable"])
                 (debug runConfig)]) /\
    (Js.includes "Failed to determine home directory" (err_message error) = true ->
     message = "Failed to determine home directory: " +:+ err_message error /\
     Js.startsWith "Failed to determine home directory: " message = true) /\
    (Js.includes "Failed to determine home directory" (err_message error) = false ->
     Js.startsWith ("Audio device selection failed: " +:+ err_message error) message = true /\
     (err_message error <> "" ->
      message = "Audio device selection failed: " +:+ err_message error)).
Proof.
  intros Hdry Hhome Hselect.
  unfold SelectAudio.execute. rewrite Hdry. unfold_cmd. rewrite Hhome. simpl.
  rewrite Hselect. simpl. unfold SelectAudio.onSelectError. unfold_cmd.
  rewrite app_assoc3. simpl.
  destruct (Js.includes "Failed to determine home directory" (err_message error)) eqn:Hinc.
  - assert (Hne : Js.nonEmpty (err_message error) = true).
    { destruct (err_message error); [discriminate Hinc|reflexivity]. }
    rewrite Hne. simpl. eexists. split; [reflexivity|]. split; [|discriminate].
    intros _. split; [reflexivity|]. apply prefix_append.
  - rewrite andb_false_r. eexists. split; [reflexivity|]. split; [discriminate|].
    intros _. unfold Js.startsWith. destruct (Js.nonEmpty (err_message error)) eqn:Hne.
    + split; [|reflexivity]. rewrite <- (append_empty_r (_ +:+ err_message error)) at 2.
      apply prefix_append.
    + unfold Js.nonEmpty in Hne. apply negb_false_iff, String.eqb_eq in Hne.
      rewrite Hne. split; [|congruence]. rewrite append_empty_r. apply prefix_append.
Qed.

Lemma select_audio_failure_is_raised_witness :
  let w :=
    {| processAudio := fun _ _ => Returns AudioNullish;
       transcribeAudio := fun _ _ _ => Returns TranscriptionNullish;
       executeCommit := fun _ _ => Returns "";
       executeReview := fun _ _ => Returns "";
       getTimestampedAudioFilename := fun _ => "audio.wav";
       isDirectoryReadable := fun _ _ => Returns true;
       listFiles := fun _ _ => Returns [];
       homedir := fun _ => Returns "/home/dev";
       selectAndConfigureAudioDevice :=
         fun _ _ _ => Throws (new_Error "Device selection failed");
       path_join := Posix.join;
       path_basename := Posix.basename;
       path_extname := Posix.extname;
       UserCancellationError_name := "UserCancellationError";
       UserCancellationError_extends_CancellationError := false;
       CancellationError_name := "CancellationError";
       typeErrorMessage := "Cannot read properties of undefined" |} in
  let runConfig := Example.config Example.noAudioCommit Example.noAudioReview in
  let error := new_Error "Device selection failed" in
  exists message,
    SelectAudio.execute w runConfig []
      = (Throws (new_Error message),
         [] ++ [EvHomedir;
                EvSelectAndConfigureAudioDevice (path_join w ["/home/dev"; ".unplayable"])
                  (debug runConfig)]) /\
    (Js.includes "Failed to determine home directory" (err_message error) = true ->
     message = "Failed to determine home directory: " +:+ err_message error /\
     Js.startsWith "Failed to determine home directory: " message = true) /\
    (Js.includes "Failed to determine home directory" (err_message error) = false ->
     Js.startsWith ("Audio device selection failed: " +:+ err_message error) message = true /\
     (err_message error <> "" ->
      message = "Audio device selection failed: " +:+ err_message error)).
Proof.
  intros w runConfig error.
  apply (select_audio_failure_is_raised w runConfig [] "/home/dev" error); reflexivity.
Defined.

(** X9. The dry run of select-audio asks for the home directory and calls
    nothing else: the device selection is not called, and the result is the
    same fixed sentence whether the home directory is found or not. *)
Lemma select_audio_dry_run (w : World) (runConfig : Config) (t : Trace) :
  dryRun runConfig = Some true ->
  SelectAudio.execute w runConfig t = (Returns SelectAudio.dryRunResult, t ++ [EvHomedir]).
Proof.
  intros Hdry. unfold SelectAudio.execute, SelectAudio.getUnplayableConfigPath.
  rewrite Hdry. simpl. unfold_cmd. destruct (homedir w t); reflexivity.
Qed.

Lemma delegation_frame_witness :
  let w := Example.world (Example.recorded "/tmp/test.wav") (Example.said "fix the parser")
             (Returns "Mock review generated") [] in
  let runConfig :=
    with_review
      (Example.config Example.noAudioCommit (Example.reviewFromFile "/path/to/audio.wav"))
      reviewWithExtras in
  exists added,
    snd (run AudioReviewCmd w runConfig []) = added /\
    forall ev, In ev added -> isDelegation ev = true ->
      exists delegated block,
        ev = EvReview delegated /\
        rest delegated = rest runConfig /\
        commit delegated = commit runConfig /\
        review delegated = Some block /\
        rv_includeCommitHistory block = Some true /\
        rv_commitHistoryLimit block = Some 10 /\
        rv_context block = Some "Review context" /\
        rv_rest block = ∅.
Proof.
  intros w runConfig.
  destruct (delegation_frame AudioReviewCmd w runConfig []) as (added & Hsnd & Hframe).
  exists added. split; [exact Hsnd|].
  intros ev Hin Hd.
  destruct (Hframe ev Hin Hd)
    as (delegated & -> & _ & _ & _ & _ & _ & Hrest & Hcommit & block & Hblock
        & Hhistory & _ & _ & _ & Hlimit & _ & _ & _ & _ & Hcontext & _ & Hempty).
  exists delegated, block. repeat split; assumption.
Defined.

(** * Further properties of the commands *)

Lemma orElse_default (o : option string) : Js.orElse o "" = default "" o.
Proof.
  destruct o as [text|]; [|reflexivity]. unfold Js.orElse, Js.nonEmpty. simpl.
  destruct (String.eqb text "") eqn:He; [|reflexivity].
  apply String.eqb_eq in He. subst. reflexivity.
Qed.

Lemma count_app (p : Event -> bool) (a b : Trace) :
  count p (a ++ b) = (count p a + count p b)%nat.
Proof. unfold count. rewrite List.filter_app, List.length_app. reflexivity. Qed.

Lemma count_none (p : Event -> bool) (t : Trace) :
  Forall (fun ev => p ev = false) t -> count p t = 0%nat.
Proof.
  unfold count. induction 1 as [|ev l Hev _ IH]; [reflexivity|].
  simpl. rewrite Hev. exact IH.
Qed.

Lemma acquisitionEvents_quiet (cmd : Command) (runConfig : Config) :
  Forall (fun ev => isDelegation ev = false) (acquisitionEvents cmd runConfig) /\
  Forall (fun ev => isTranscription ev = false) (acquisitionEvents cmd runConfig).
Proof.
  unfold acquisitionEvents, countdownBefore, countdownAfter.
  destruct (startsCountdown cmd runConfig); split; repeat constructor.
Qed.

(** ** The transcript on its way to the downstream command *)

(** X1. In live single-file/recording mode, when the acquisition returns a
    result that is not cancelled and the transcription returns a text, the
    command makes its downstream call right after the transcription and ends
    as that call ends.  The designated free-text field of the config it hands
    over is the trimmed text when that is not empty, whatever the field held
    before; for a blank text it is the value the field already had, or the
    empty string. *)
Theorem transcript_is_delegated
  (cmd : Command) (w : World) (runConfig : Config) (t : Trace)
  (reported : option string) (text : string) :
  let t1 := t ++ acquisitionEvents cmd runConfig in
  let audioFilePath := resolvedAudioPath cmd w runConfig reported t1 in
  let t2 := t1 ++ [EvTranscribeAudio audioFilePath (transcribeOptions w runConfig)] in
  singleFileLive cmd runConfig = true ->
  processAudio w (t ++ countdownBefore cmd runConfig) (audioOptions cmd runConfig)
    = Returns (AudioObject false reported) ->
  transcribeAudio w t1 audioFilePath (transcribeOptions w runConfig)
    = Returns (TranscriptionObject (TextString text)) ->
  exists delegated,
    run cmd w runConfig t = (downstream cmd w t2 delegated, t2 ++ [delegation cmd delegated]) /\
    freeText cmd delegated
      = Some (if String.eqb (Js.trim text) "" then default "" (freeText cmd runConfig)
              else Js.trim text).
Proof.
  intros t1 audioFilePath t2 Hlive Haudio Htext.
  rewrite (run_steps _ _ _ _ Hlive), audioPhase_steps. cbv zeta. rewrite Haudio.
  fold t1. fold audioFilePath. rewrite Htext. simpl. fold t2.
  eexists. split; [reflexivity|].
  unfold Js.nonEmpty. destruct (String.eqb (Js.trim text) "") eqn:Hblank; simpl.
  - destruct cmd; simpl; unfold AudioReview.resolvedNote; simpl;
      rewrite orElse_default; reflexivity.
  - destruct cmd; simpl; unfold AudioReview.resolvedNote, Js.orElse, Js.nonEmpty;
      rewrite Hblank; reflexivity.
Qed.

Lemma transcript_is_delegated_witness :
  let cmd := AudioCommitCmd in
  let w := Example.world (Example.recorded "/tmp/a.wav") (Example.said "  hello world ")
             (Returns "feat: greet the world") [] in
  let runConfig := Example.config (Example.fromFile "/a.wav") Example.noAudioReview in
  let t1 := [] ++ acquisitionEvents cmd runConfig in
  let audioFilePath := resolvedAudioPath cmd w runConfig (Some "/tmp/a.wav") t1 in
  let t2 := t1 ++ [EvTranscribeAudio audioFilePath (transcribeOptions w runConfig)] in
  exists delegated,
    run cmd w runConfig [] = (downstream cmd w t2 delegated, t2 ++ [delegation cmd delegated]) /\
    freeText cmd delegated
      = Some (if String.eqb (Js.trim "  hello world ") ""
              then default "" (freeText cmd runConfig)
              else Js.trim "  hello world ").
Proof.
  intros cmd w runConfig t1 audioFilePath t2.
  apply (transcript_is_delegated cmd w runConfig [] (Some "/tmp/a.wav") "  hello world ");
    reflexivity.
Defined.

Example hello_world_is_the_direction :
  let w := Example.world (Example.recorded "/tmp/a.wav") (Example.said "  hello world ")
             (Returns "feat: greet the world") [] in
  let runConfig := Example.config (Example.fromFile "/a.wav") Example.noAudioReview in
  fst (run AudioCommitCmd w runConfig []) = Returns "feat: greet the world" /\
  map (freeText AudioCommitCmd)
    (omap (fun ev => match ev with EvCommit c => Some c | _ => None end)
       (snd (run AudioCommitCmd w runConfig [])))
  = [Some "hello world"].
Proof. split; vm_compute; reflexivity. Qed.

(** ** Every live single-file run cancels or delegates *)

(** X2. A live single-file/recording run ends in one of two ways.  Either it
    throws a cancellation without any downstream call (from the commit the
    error is always an instance of [UserCancellationError]), or its last call
    is its only downstream call and the run ends exactly as that call ends:
    with its result, or with the error it throws. *)
Theorem cancels_or_delegates_once
  (cmd : Command) (w : World) (runConfig : Config) (t : Trace) :
  singleFileLive cmd runConfig = true ->
  exists added,
    snd (run cmd w runConfig t) = t ++ added /\
    ((exists error,
        fst (run cmd w runConfig t) = Throws error /\
        isCancellation cmd error = true /\
        (cmd = AudioCommitCmd -> err_isUserCancellationError error = true) /\
        count isDelegation added = 0%nat) \/
     (exists before delegated,
        added = before ++ [delegation cmd delegated] /\
        count isDelegation added = 1%nat /\
        fst (run cmd w runConfig t) = downstream cmd w (t ++ before) delegated)).
Proof.
  intros Hlive. rewrite (run_steps _ _ _ _ Hlive).
  destruct (audioPhase_no_delegation cmd w runConfig t) as (added & Hsnd & Hadded).
  assert (Hzero := count_none isDelegation added Hadded).
  assert (Hone : forall delegated,
            count isDelegation (added ++ [delegation cmd delegated]) = 1%nat).
  { intros delegated. rewrite count_app, Hzero. destruct cmd; reflexivity. }
  destruct (audioPhase cmd w runConfig t) as [[ctx|error] t']; simpl in Hsnd; subst t'.
  - eexists. cbv zeta. simpl. rewrite app_assoc3. split; [reflexivity|].
    right. do 2 eexists. split; [reflexivity|]. split; [apply Hone|reflexivity].
  - destruct (isCancellation cmd error) eqn:Hc; simpl.
    + exists added. split; [reflexivity|]. left. eexists. split; [reflexivity|].
      split; [|split; [|exact Hzero]].
      * destruct cmd; simpl in *; [|exact Hc].
        destruct (err_isUserCancellationError error) eqn:Hu; [rewrite Hu|]; reflexivity.
      * intros ->. simpl. destruct (err_isUserCancellationError error) eqn:Hu;
          [exact Hu|reflexivity].
    + eexists. rewrite app_assoc3. split; [reflexivity|].
      right. do 2 eexists. split; [reflexivity|]. split; [apply Hone|reflexivity].
Qed.

Lemma cancels_or_delegates_once_witness :
  let cmd := AudioCommitCmd in
  let w := Example.world (Example.recorded "/tmp/a.wav") (Example.said "hello")
             (Throws (new_Error "nothing staged")) [] in
  let runConfig := Example.config (Example.recording 30) Example.noAudioReview in
  exists added,
    snd (run cmd w runConfig []) = [] ++ added /\
    ((exists error,
        fst (run cmd w runConfig []) = Throws error /\
        isCancellation cmd error = true /\
        (cmd = AudioCommitCmd -> err_isUserCancellationError error = true) /\
        count isDelegation added = 0%nat) \/
     (exists before delegated,
        added = before ++ [delegation cmd delegated] /\
        count isDelegation added = 1%nat /\
        fst (run cmd w runConfig []) = downstream cmd w ([] ++ before) delegated)).
Proof.
  intros cmd w runConfig. apply (cancels_or_delegates_once cmd w runConfig []). reflexivity.
Defined.

Example downstream_failure_reaches_the_caller :
  let w := Example.world (Example.recorded "/tmp/a.wav") (Example.said "hello")
             (Throws (new_Error "nothing staged")) [] in
  let runConfig := Example.config (Example.recording 30) Example.noAudioReview in
  fst (run AudioCommitCmd w runConfig []) = Throws (new_Error "nothing staged").
Proof. reflexivity. Qed.

(** ** No transcription without a recording *)

(** X3. In live single-file/recording mode [transcribeAudio] is called
    exactly once when [processAudio] returns an object that is not cancelled,
    and is not called at all when [processAudio] throws, returns no object,
    or returns a cancelled result. *)
Theorem transcribes_only_what_was_acquired
  (cmd : Command) (w : World) (runConfig : Config) (t : Trace) :
  singleFileLive cmd runConfig = true ->
  exists added,
    snd (run cmd w runConfig t) = t ++ added /\
    count isTranscription added
      = (if acquired (processAudio w (t ++ countdownBefore cmd runConfig)
                        (audioOptions cmd runConfig))
         then 1 else 0)%nat.
Proof.
  intros Hlive.
  destruct (acquisitionEvents_quiet cmd runConfig) as [_ Hquiet].
  assert (Hzero := count_none isTranscription _ Hquiet).
  assert (Hlast : forall delegated, count isTranscription [delegation cmd delegated] = 0%nat).
  { intros delegated. destruct cmd; reflexivity. }
  rewrite (run_steps _ _ _ _ Hlive), audioPhase_steps. cbv zeta.
  destruct (processAudio w _ _) as [[|[|] reported]|error]; simpl.
  - destruct (isCancellation cmd _); simpl.
    + eexists. split; [reflexivity|exact Hzero].
    + eexists. rewrite app_assoc3. split; [reflexivity|].
      rewrite count_app, Hzero, Hlast. reflexivity.
  - destruct (isCancellation cmd _); simpl.
    + eexists. split; [reflexivity|exact Hzero].
    + eexists. rewrite app_assoc3. split; [reflexivity|].
      rewrite count_app, Hzero, Hlast. reflexivity.
  - assert (Hcounted : forall path options rest,
              count isTranscription rest = 0%nat ->
              count isTranscription
                (acquisitionEvents cmd runConfig ++ [EvTranscribeAudio path options] ++ rest)
              = 1%nat).
    { intros path options rest Hrest. rewrite !count_app, Hzero, Hrest. reflexivity. }
    destruct (transcribeAudio w _ _ _) as [transcription|error].
    + destruct (transcriptOf cmd w transcription) as [ctx|error]; simpl.
      * eexists. rewrite !app_assoc3. split; [reflexivity|]. apply Hcounted, Hlast.
      * destruct (isCancellation cmd error); simpl.
        -- eexists. rewrite !app_assoc3. split; [reflexivity|]. apply (Hcounted _ _ []).
           reflexivity.
        -- eexists. rewrite !app_assoc3. split; [reflexivity|]. apply Hcounted, Hlast.
    + destruct (isCancellation cmd error); simpl.
      * eexists. rewrite !app_assoc3. split; [reflexivity|]. apply (Hcounted _ _ []).
        reflexivity.
      * eexists. rewrite !app_assoc3. split; [reflexivity|]. apply Hcounted, Hlast.
  - destruct (isCancellation cmd error); simpl.
    + eexists. split; [reflexivity|exact Hzero].
    + eexists. rewrite app_assoc3. split; [reflexivity|].
      rewrite count_app, Hzero, Hlast. reflexivity.
Qed.

Lemma transcribes_only_what_was_acquired_witness :
  let cmd := AudioReviewCmd in
  let w := Example.world (Throws (new_Error "no microphone")) (Example.said "hello")
             (Returns "Mock review generated") [] in
  let runConfig := Example.config Example.noAudioCommit Example.noAudioReview in
  exists added,
    snd (run cmd w runConfig []) = [] ++ added /\
    count isTranscription added
      = (if acquired (processAudio w ([] ++ countdownBefore cmd runConfig)
                        (audioOptions cmd runConfig))
         then 1 else 0)%nat.
Proof.
  intros cmd w runConfig.
  apply (transcribes_only_what_was_acquired cmd w runConfig []). reflexivity.
Defined.

(** ** Discovery failures *)

(** X4. When the storage reports the directory as not readable, the
    discovery throws 'Directory not readable: <directory>' without listing
    the directory, and a live batch run throws that same error: nothing is
    listed, transcribed or reviewed. *)
Theorem unreadable_directory_aborts_batch
  (w : World) (runConfig : Config) (directory : string) (t : Trace) :
  Js.orFalse (dryRun runConfig) = false ->
  audioReview runConfig ≫= ar_directory = Some directory ->
  directory <> "" ->
  isDirectoryReadable w t directory = Returns false ->
  AudioReview.discoverAudioFiles w directory t
    = (Throws (new_Error ("Directory not readable: " +:+ directory)),
       t ++ [EvIsDirectoryReadable directory]) /\
  AudioReview.execute w runConfig t
    = (Throws (new_Error ("Directory not readable: " +:+ directory)),
       t ++ [EvIsDirectoryReadable directory]).
Proof.
  intros Hdry Hdir Hne Hread.
  assert (Hdisc : AudioReview.discoverAudioFiles w directory t
            = (Throws (new_Error ("Directory not readable: " +:+ directory)),
               t ++ [EvIsDirectoryReadable directory])).
  { unfold AudioReview.discoverAudioFiles. unfold_cmd. rewrite Hread. reflexivity. }
  split; [exact Hdisc|].
  unfold AudioReview.execute. rewrite Hdry, Hdir. unfold Js.truthy, Js.nonEmpty.
  apply String.eqb_neq in Hne. rewrite Hne. simpl.
  unfold AudioReview.batch. unfold_cmd. rewrite Hdisc. reflexivity.
Qed.

Lemma unreadable_directory_aborts_batch_witness :
  let w := unreadable (Example.world (Returns AudioNullish) (Example.said "hello")
                         (Returns "Mock review generated") ["a.wav"]) in
  let runConfig := Example.config Example.noAudioCommit (Example.reviewDirectory "/recs") in
  AudioReview.discoverAudioFiles w "/recs" []
    = (Throws (new_Error ("Directory not readable: " +:+ "/recs")),
       [] ++ [EvIsDirectoryReadable "/recs"]) /\
  AudioReview.execute w runConfig []
    = (Throws (new_Error ("Directory not readable: " +:+ "/recs")),
       [] ++ [EvIsDirectoryReadable "/recs"]).
Proof.
  intros w runConfig.
  apply (unreadable_directory_aborts_batch w runConfig "/recs" []);
    [reflexivity | reflexivity | discriminate | reflexivity].
Defined.

(** X5. Whatever makes the discovery throw (the readability test or the
    listing throwing, or an unreadable directory), a live batch run throws
    the same error on the trace the discovery left: no file is transcribed or
    reviewed. *)
Theorem discovery_failure_reaches_the_caller
  (w : World) (runConfig : Config) (directory : string) (t t0 : Trace) (error : JsError) :
  Js.orFalse (dryRun runConfig) = false ->
  audioReview runConfig ≫= ar_directory = Some directory ->
  directory <> "" ->
  AudioReview.discoverAudioFiles w directory t = (Throws error, t0) ->
  AudioReview.execute w runConfig t = (Throws error, t0) /\
  exists added,
    t0 = t ++ added /\
    Forall (fun ev => kindOf ev = Storage) added /\
    (isDirectoryReadable w t directory = Throws error \/
     (isDirectoryReadable w t directory = Returns false /\
      error = new_Error ("Directory not readable: " +:+ directory)) \/
     (isDirectoryReadable w t directory = Returns true /\
      listFiles w (t ++ [EvIsDirectoryReadable directory]) directory = Throws error)).
Proof.
  intros Hdry Hdir Hne Hdisc. split.
  - unfold AudioReview.execute. rewrite Hdry, Hdir. unfold Js.truthy, Js.nonEmpty.
    apply String.eqb_neq in Hne. rewrite Hne. simpl.
    unfold AudioReview.batch. unfold_cmd. rewrite Hdisc. reflexivity.
  - revert Hdisc. unfold AudioReview.discoverAudioFiles. unfold_cmd.
    destruct (isDirectoryReadable w t directory) as [[|]|raised]; simpl.
    + destruct (listFiles w _ directory) as [names|raised]; simpl; intros H;
        inversion H; subst.
      eexists [_; _]. rewrite app_assoc3. split; [reflexivity|].
      split; [repeat constructor|]. right. right. split; reflexivity.
    + intros H. inversion H; subst. eexists [_]. split; [reflexivity|].
      split; [repeat constructor|]. right. left. split; reflexivity.
    + intros H. inversion H; subst. eexists [_]. split; [reflexivity|].
      split; [repeat constructor|]. left. reflexivity.
Qed.

Lemma discovery_failure_reaches_the_caller_witness :
  let w := unreadable (Example.world (Returns AudioNullish) (Example.said "hello")
                         (Returns "Mock review generated") ["a.wav"]) in
  let runConfig := Example.config Example.noAudioCommit (Example.reviewDirectory "/recs") in
  let error := new_Error "Directory not readable: /recs" in
  let t0 := [EvIsDirectoryReadable "/recs"] in
  AudioReview.execute w runConfig [] = (Throws error, t0) /\
  exists added,
    t0 = [] ++ added /\
    Forall (fun ev => kindOf ev = Storage) added /\
    (isDirectoryReadable w [] "/recs" = Throws error \/
     (isDirectoryReadable w [] "/recs" = Returns false /\
      error = new_Error ("Directory not readable: " +:+ "/recs")) \/
     (isDirectoryReadable w [] "/recs" = Returns true /\
      listFiles w ([] ++ [EvIsDirectoryReadable "/recs"]) "/recs" = Throws error)).
Proof.
  intros w runConfig error t0.
  apply (discovery_failure_reaches_the_caller w runConfig "/recs" [] t0 error);
    [reflexivity | reflexivity | discriminate | reflexivity].
Defined.

(** ** A directory without recordings *)

Lemma filter_nothing {A} (p : A -> bool) (l : list A) :
  Forall (fun x => p x = false) l -> List.filter p l = [].
Proof.
  induction 1 as [|x l Hx _ IH]; [reflexivity|]. simpl. rewrite Hx. exact IH.
Qed.

(** X6. When no entry of a readable directory has an audio extension (an
    empty directory included), a live batch run returns
    'No audio files found to process' after the two storage calls: it
    transcribes nothing, reviews nothing and does not throw. *)
Theorem batch_without_recordings
  (w : World) (runConfig : Config) (directory : string) (t : Trace) (names : list string) :
  Js.orFalse (dryRun runConfig) = false ->
  audioReview runConfig ≫= ar_directory = Some directory ->
  directory <> "" ->
  isDirectoryReadable w t directory = Returns true ->
  listFiles w (t ++ [EvIsDirectoryReadable directory]) directory = Returns names ->
  Forall (fun name =>
            ~ In (Js.toLowerCase (path_extname w name))
                 [".wav"; ".mp3"; ".m4a"; ".aac"; ".flac"; ".ogg"; ".wma"]) names ->
  AudioReview.execute w runConfig t
    = (Returns "No audio files found to process",
       t ++ [EvIsDirectoryReadable directory; EvListFiles directory]).
Proof.
  intros Hdry Hdir Hne Hread Hlist Hnone.
  assert (Hfilter : List.filter (AudioReview.isAudioFile w) names = []).
  { apply filter_nothing. eapply Forall_impl; [exact Hnone|].
    intros name Hname.
    destruct (AudioReview.isAudioFile w name) eqn:Haudio; [|reflexivity].
    exfalso. apply Hname. apply (proj1 (arrayIncludes_In _ _)). exact Haudio. }
  unfold AudioReview.execute. rewrite Hdry, Hdir. unfold Js.truthy, Js.nonEmpty.
  apply String.eqb_neq in Hne. rewrite Hne. simpl.
  unfold AudioReview.batch, AudioReview.discoverAudioFiles. unfold_cmd.
  rewrite Hread. simpl. rewrite Hlist. simpl. rewrite Hfilter. simpl.
  rewrite app_assoc3. reflexivity.
Qed.

Lemma batch_without_recordings_witness :
  let names := ["notes.txt"; "README.md"; ".wav"; "wav"] in
  let w := Example.world (Returns AudioNullish) (Example.said "hello")
             (Returns "Mock review generated") names in
  let runConfig := Example.config Example.noAudioCommit (Example.reviewDirectory "/recs") in
  AudioReview.execute w runConfig []
    = (Returns "No audio files found to process",
       [] ++ [EvIsDirectoryReadable "/recs"; EvListFiles "/recs"]).
Proof.
  intros names w runConfig.
  apply (batch_without_recordings w runConfig "/recs" [] names);
    [reflexivity | reflexivity | discriminate | reflexivity | reflexivity |].
  repeat (constructor 2; [vm_compute; intuition discriminate|]). constructor 1.
Defined.

(** ** What a batch never does *)

Lemma FileOutcome_calls
  (w : World) (runConfig : Config) (audioFile content : string) (t t1 : Trace) :
  FileOutcome w runConfig audioFile t content t1 ->
  exists added,
    t1 = t ++ added /\
    Forall (fun ev => isBatchCall ev = true) added /\
    count isTranscription added = 1%nat /\
    (count isDelegation added <= 1)%nat.
Proof.
  intros H. destruct H; subst; eexists; (split; [reflexivity|]);
    (split; [repeat constructor|]); split; try reflexivity; cbv; lia.
Qed.

Lemma BatchOutcome_calls
  (w : World) (runConfig : Config) (audioFiles sections : list string) (t t' : Trace) :
  BatchOutcome w runConfig t audioFiles sections t' ->
  exists added,
    t' = t ++ added /\
    Forall (fun ev => isBatchCall ev = true) added /\
    count isTranscription added = length audioFiles /\
    (count isDelegation added <= length audioFiles)%nat.
Proof.
  induction 1 as [t|t t1 t2 audioFile content more sections Hfile _
                    (added & -> & Hcalls & Htr & Hdel)].
  - exists []. rewrite app_nil_r. repeat split; [constructor|reflexivity].
  - destruct (FileOutcome_calls _ _ _ _ _ _ Hfile) as (first & -> & Hfirst & Htr1 & Hdel1).
    exists (first ++ added). rewrite app_assoc3. split; [reflexivity|].
    split; [apply Forall_app; split; assumption|].
    rewrite !count_app, Htr1, Htr. simpl. split; [reflexivity|lia].
Qed.

(** X7. With a directory option, the review never records: whatever the
    [file] and [maxRecordingTime] options say, [processAudio] is not called
    and no countdown is created.  The run makes storage, transcription and
    review calls only, and no more review calls than transcription calls. *)
Theorem batch_never_records (w : World) (runConfig : Config) (t : Trace) :
  Js.truthy (audioReview runConfig ≫= ar_directory) = true ->
  exists added,
    snd (AudioReview.execute w runConfig t) = t ++ added /\
    Forall (fun ev => kindOf ev = Storage \/ kindOf ev = TranscriptionCall
                      \/ kindOf ev = Delegation) added /\
    count isAcquisition added = 0%nat /\
    count isCountdown added = 0%nat /\
    (count isDelegation added <= count isTranscription added)%nat.
Proof.
  intros Hdir.
  assert (Hcalls : exists added,
    snd (AudioReview.execute w runConfig t) = t ++ added /\
    Forall (fun ev => isBatchCall ev = true) added /\
    (count isDelegation added <= count isTranscription added)%nat).
  { unfold AudioReview.execute. rewrite Hdir.
    destruct (Js.orFalse (dryRun runConfig)).
    - exists []. rewrite app_nil_r. repeat split; [constructor|reflexivity].
    - unfold AudioReview.batch, AudioReview.discoverAudioFiles. unfold_cmd.
      destruct (isDirectoryReadable w t _) as [[|]|error]; simpl.
      + destruct (listFiles w _ _) as [names|error]; simpl.
        * set (audioFiles := Js.sort _).
          destruct (length audioFiles =? 0)%nat.
          -- eexists [_; _]. rewrite app_assoc3.
             repeat split; [repeat constructor|reflexivity].
          -- destruct (processEach_outcome w runConfig audioFiles
                         ((t ++ [EvIsDirectoryReadable (default "" (audioReview runConfig ≫= ar_directory))])
                            ++ [EvListFiles (default "" (audioReview runConfig ≫= ar_directory))]))
               as (sections & t' & Hrun & Hbatch).
             rewrite Hrun. simpl.
             destruct (BatchOutcome_calls _ _ _ _ _ _ Hbatch)
               as (added & -> & Hadded & Htr & Hdel).
             eexists ([_; _] ++ added). rewrite !app_assoc3. split; [reflexivity|].
             split; [apply Forall_app; split; [repeat constructor|exact Hadded]|].
             rewrite !count_app. simpl. change (count isDelegation [_; _]) with 0%nat.
             change (count isTranscription [_; _]) with 0%nat. lia.
        * eexists [_; _]. rewrite app_assoc3.
          repeat split; [repeat constructor|reflexivity].
      + eexists [_]. repeat split; [repeat constructor|reflexivity].
      + eexists [_]. repeat split; [repeat constructor|reflexivity]. }
  destruct Hcalls as (added & Hsnd & Hadded & Hle).
  exists added. split; [exact Hsnd|].
  split; [|split; [|split; [|exact Hle]]].
  - eapply Forall_impl; [exact Hadded|]. intros ev. unfold isBatchCall.
    destruct (kindOf ev); intros H; try discriminate H; auto.
  - apply count_none. eapply Forall_impl; [exact Hadded|].
    intros []; cbv; congruence.
  - apply count_none. eapply Forall_impl; [exact Hadded|].
    intros []; cbv; congruence.
Qed.

Lemma batch_never_records_witness :
  let w := Example.world (Example.recorded "/tmp/a.wav") (Example.said "hello")
             (Returns "Mock review generated") ["a.wav"; "b.mp3"] in
  let runConfig :=
    Example.config Example.noAudioCommit
      {| ar_file := Some "/tmp/a.wav"; ar_directory := Some "/recs";
         ar_maxRecordingTime := Some 60;
         ar_includeCommitHistory := None; ar_includeRecentDiffs := None;
         ar_includeReleaseNotes := None; ar_includeGithubIssues := None;
         ar_commitHistoryLimit := None; ar_diffHistoryLimit := None;
         ar_releaseNotesLimit := None; ar_githubIssuesLimit := None;
         ar_sendit := None; ar_context := None; ar_rest := ∅ |} in
  exists added,
    snd (AudioReview.execute w runConfig []) = [] ++ added /\
    Forall (fun ev => kindOf ev = Storage \/ kindOf ev = TranscriptionCall
                      \/ kindOf ev = Delegation) added /\
    count isAcquisition added = 0%nat /\
    count isCountdown added = 0%nat /\
    (count isDelegation added <= count isTranscription added)%nat.
Proof.
  intros w runConfig. apply (batch_never_records w runConfig []). reflexivity.
Defined.

(** ** The order of the listing does not matter *)

Lemma filter_Permutation_bool {A} (p : A -> bool) (l l' : list A) :
  l ≡ₚ l' -> List.filter p l ≡ₚ List.filter p l'.
Proof.
  induction 1 as [|x l l' _ IH|x y l|l l' l'' _ IH1 _ IH2]; simpl.
  - reflexivity.
  - destruct (p x); [constructor|]; exact IH.
  - destruct (p x), (p y); try reflexivity. constructor.
  - etransitivity; eassumption.
Qed.

(** X8. The discovery does not depend on the order in which the storage
    lists the entries: two listings of the same entries, in any order and
    at any two moments, give the same list of audio files, in the same
    order. *)
Theorem discovery_ignores_listing_order
  (w : World) (directory : string) (t t' : Trace) (names names' : list string) :
  isDirectoryReadable w t directory = Returns true ->
  listFiles w (t ++ [EvIsDirectoryReadable directory]) directory = Returns names ->
  isDirectoryReadable w t' directory = Returns true ->
  listFiles w (t' ++ [EvIsDirectoryReadable directory]) directory = Returns names' ->
  names ≡ₚ names' ->
  exists audioFiles,
    fst (AudioReview.discoverAudioFiles w directory t) = Returns audioFiles /\
    fst (AudioReview.discoverAudioFiles w directory t') = Returns audioFiles.
Proof.
  intros Hread Hlist Hread' Hlist' Hperm.
  unfold AudioReview.discoverAudioFiles. unfold_cmd.
  rewrite Hread, Hread'. simpl. rewrite Hlist, Hlist'. simpl.
  eexists. split; [reflexivity|]. f_equal. unfold Js.sort.
  apply (Sorted_unique String.le).
  - apply Sorted_merge_sort; apply _.
  - apply Sorted_merge_sort; apply _.
  - rewrite !merge_sort_Permutation. apply Permutation_map.
    apply filter_Permutation_bool. symmetry. exact Hperm.
Qed.

Lemma discovery_ignores_listing_order_witness :
  let names := ["b.wav"; "notes.txt"; "a.mp3"; "c.OGG"] in
  let names' := ["c.OGG"; "a.mp3"; "b.wav"; "notes.txt"] in
  let w := relisting (Example.world (Returns AudioNullish) (Example.said "hello")
                        (Returns "Mock review generated") [])
             names names' in
  let t' := [EvIsDirectoryReadable "/recs"; EvListFiles "/recs"] in
  exists audioFiles,
    fst (AudioReview.discoverAudioFiles w "/recs" []) = Returns audioFiles /\
    fst (AudioReview.discoverAudioFiles w "/recs" t') = Returns audioFiles.
Proof.
  intros names names' w t'.
  apply (discovery_ignores_listing_order w "/recs" [] t' names names');
    [reflexivity | reflexivity | reflexivity | reflexivity |].
  unfold names, names'.
  change ["c.OGG"; "a.mp3"; "b.wav"; "notes.txt"]
    with (["c.OGG"] ++ ["a.mp3"] ++ ["b.wav"; "notes.txt"]).
  change ["b.wav"; "notes.txt"; "a.mp3"; "c.OGG"]
    with (["b.wav"; "notes.txt"] ++ ["a.mp3"] ++ ["c.OGG"]).
  rewrite (Permutation_app_comm ["b.wav"; "notes.txt"]).
  rewrite <- app_assoc3.
  rewrite (Permutation_app_comm ["a.mp3"] ["c.OGG"]).
  rewrite app_assoc3. reflexivity.
Defined.

(** ** select-audio *)

Lemma select_audio_dry_run_witness :
  let w := homeless (Example.world (Returns AudioNullish) (Example.said "hello")
                       (Returns "") [])
             (new_Error "ENOENT: no home") in
  let runConfig :=
    Example.withDryRun (Example.config Example.noAudioCommit Example.noAudioReview) in
  SelectAudio.execute w runConfig []
  = (Returns "Audio device selection completed (dry run)", [] ++ [EvHomedir]).
Proof.
  intros w runConfig. apply (select_audio_dry_run w runConfig []). reflexivity.
Defined.

(** X10. In a live run of select-audio with the home directory known, the
    device selection is called once, with the preferences directory
    '<home>/.unplayable' (joined by [path.join]) and the [debug] flag of the
    config, and what it returns is returned as it is. *)
Theorem select_audio_returns_the_selection
  (w : World) (runConfig : Config) (t : Trace) (home result : string) :
  Js.orFalse (dryRun runConfig) = false ->
  homedir w t = Returns home ->
  selectAndConfigureAudioDevice w (t ++ [EvHomedir])
    (path_join w [home; ".unplayable"]) (debug runConfig) = Returns result ->
  SelectAudio.execute w runConfig t
  = (Returns result,
     t ++ [EvHomedir;
           EvSelectAndConfigureAudioDevice (path_join w [home; ".unplayable"])
             (debug runConfig)]).
Proof.
  intros Hdry Hhome Hselect.
  unfold SelectAudio.execute. rewrite Hdry. unfold_cmd. rewrite Hhome. simpl.
  rewrite Hselect. rewrite app_assoc3. reflexivity.
Qed.

Lemma select_audio_returns_the_selection_witness :
  let w := Example.world (Returns AudioNullish) (Example.said "hello") (Returns "") [] in
  let runConfig := Example.config Example.noAudioCommit Example.noAudioReview in
  SelectAudio.execute w runConfig []
  = (Returns "Device configured successfully",
     [] ++ [EvHomedir;
            EvSelectAndConfigureAudioDevice (path_join w ["/home/dev"; ".unplayable"])
              (debug runConfig)]).
Proof.
  intros w runConfig.
  apply (select_audio_returns_the_selection w runConfig [] "/home/dev"); reflexivity.
Defined.

(** X11. In a live run of select-audio, when the home directory cannot be
    determined, the device selection is never called and the command throws
    a new [Error]: 'Failed to determine home directory: ' followed by the
    message when the message already contains
    'Failed to determine home directory', and otherwise
    'Audio device selection failed: ' followed by the message, or by the
    error's string form when it has no message. *)
Theorem select_audio_without_home
  (w : World) (runConfig : Config) (t : Trace) (error : JsError) :
  Js.orFalse (dryRun runConfig) = false ->
  homedir w t = Throws error ->
  SelectAudio.execute w runConfig t
  = (Throws (new_Error
       (if Js.includes "Failed to determine home directory" (err_message error)
        then "Failed to determine home directory: " +:+ err_message error
        else "Audio device selection failed: "
               +:+ (if String.eqb (err_message error) "" then err_toString error
                    else err_message error))),
     t ++ [EvHomedir]).
Proof.
  intros Hdry Hhome.
  unfold SelectAudio.execute. rewrite Hdry. unfold_cmd. rewrite Hhome. simpl.
  unfold SelectAudio.onSelectError. unfold_cmd. unfold Js.nonEmpty.
  destruct (String.eqb (err_message error) "") eqn:Hempty; simpl.
  - apply String.eqb_eq in Hempty. rewrite Hempty. reflexivity.
  - destruct (Js.includes _ (err_message error)); reflexivity.
Qed.

Lemma select_audio_without_home_witness :
  let error := new_Error "ENOENT: no home" in
  let w := homeless (Example.world (Returns AudioNullish) (Example.said "hello")
                       (Returns "") []) error in
  let runConfig := Example.config Example.noAudioCommit Example.noAudioReview in
  SelectAudio.execute w runConfig []
  = (Throws (new_Error
       (if Js.includes "Failed to determine home directory" (err_message error)
        then "Failed to determine home directory: " +:+ err_message error
        else "Audio device selection failed: "
               +:+ (if String.eqb (err_message error) "" then err_toString error
                    else err_message error))),
     [] ++ [EvHomedir]).
Proof.
  intros error w runConfig.
  apply (select_audio_without_home w runConfig [] error); reflexivity.
Defined.


(** ** The options of every transcription *)

Lemma audioPhase_transcribesWith (cmd : Command) (w : World) (runConfig : Config) (t : Trace) :
  exists added,
    snd (audioPhase cmd w runConfig t) = t ++ added /\
    Forall (transcribesWith w runConfig) added.
Proof.
  assert (Hquiet : Forall (transcribesWith w runConfig) (acquisitionEvents cmd runConfig)).
  { unfold acquisitionEvents, countdownBefore, countdownAfter.
    destruct (startsCountdown cmd runConfig); repeat constructor. }
  rewrite audioPhase_steps. cbv zeta.
  destruct (processAudio w _ _) as [[|[|] reported]|error]; simpl;
    try (eexists; split; [reflexivity|exact Hquiet]).
  destruct (transcribeAudio w _ _ _); simpl; eexists; rewrite app_assoc3;
    (split; [reflexivity|]); (apply Forall_app; split; [exact Hquiet|]);
    repeat constructor.
Qed.

Lemma BatchOutcome_transcribesWith
  (w : World) (runConfig : Config) (audioFiles sections : list string) (t t' : Trace) :
  BatchOutcome w runConfig t audioFiles sections t' ->
  exists added, t' = t ++ added /\ Forall (transcribesWith w runConfig) added.
Proof.
  induction 1 as [t|t t1 t2 audioFile content more sections Hfile _ (added & -> & IH)].
  - exists []. rewrite app_nil_r. split; [reflexivity|constructor].
  - assert (Hfirst : exists first,
      t1 = t ++ first /\ Forall (transcribesWith w runConfig) first).
    { destruct Hfile; subst; eexists; (split; [reflexivity|]); repeat constructor. }
    destruct Hfirst as (first & -> & Hfirst).
    exists (first ++ added). rewrite app_assoc3. split; [reflexivity|].
    apply Forall_app. split; assumption.
Qed.

Lemma run_transcribesWith (cmd : Command) (w : World) (runConfig : Config) (t : Trace) :
  exists added,
    snd (run cmd w runConfig t) = t ++ added /\
    Forall (transcribesWith w runConfig) added.
Proof.
  destruct (singleFileLive cmd runConfig) eqn:Hlive.
  - rewrite (run_steps _ _ _ _ Hlive).
    destruct (audioPhase_transcribesWith cmd w runConfig t) as (added & Hsnd & Hadded).
    assert (Hlast : forall delegated,
      Forall (transcribesWith w runConfig) (added ++ [delegation cmd delegated])).
    { intros delegated. apply Forall_app. split; [exact Hadded|].
      destruct cmd; repeat constructor. }
    destruct (audioPhase cmd w runConfig t) as [[ctx|error] t']; simpl in Hsnd; subst t'.
    + eexists. cbv zeta. simpl. rewrite app_assoc3. split; [reflexivity|apply Hlast].
    + destruct (isCancellation cmd error); simpl.
      * exists added. split; [reflexivity|exact Hadded].
      * eexists. rewrite app_assoc3. split; [reflexivity|apply Hlast].
  - unfold singleFileLive in Hlive. destruct cmd; simpl in *.
    + rewrite andb_true_r in Hlive. apply negb_false_iff in Hlive.
      unfold AudioCommit.execute, AudioCommit.executeInternal. rewrite Hlive.
      exists []. rewrite app_nil_r. split; [reflexivity|constructor].
    + unfold AudioReview.execute.
      destruct (Js.truthy (audioReview runConfig ≫= ar_directory)) eqn:Hdir.
      * destruct (Js.orFalse (dryRun runConfig)).
        -- exists []. rewrite app_nil_r. split; [reflexivity|constructor].
        -- unfold AudioReview.batch, AudioReview.discoverAudioFiles. unfold_cmd.
           destruct (isDirectoryReadable w t _) as [[|]|error]; simpl;
             try (eexists [_]; split; [reflexivity|repeat constructor]).
           destruct (listFiles w _ _) as [names|error]; simpl;
             try (eexists [_; _]; rewrite app_assoc3; split;
                  [reflexivity|repeat constructor]).
           set (audioFiles := Js.sort _).
           destruct (length audioFiles =? 0)%nat.
           ++ eexists [_; _]. rewrite app_assoc3. split; [reflexivity|repeat constructor].
           ++ destruct (processEach_outcome w runConfig audioFiles
                          ((t ++ [EvIsDirectoryReadable
                                    (default "" (audioReview runConfig ≫= ar_directory))])
                             ++ [EvListFiles
                                   (default "" (audioReview runConfig ≫= ar_directory))]))
                as (sections & t' & Hrun & Hbatch).
              rewrite Hrun. simpl.
              destruct (BatchOutcome_transcribesWith _ _ _ _ _ _ Hbatch)
                as (added & -> & Hadded).
              eexists ([_; _] ++ added). rewrite !app_assoc3. split; [reflexivity|].
              apply Forall_app. split; [repeat constructor|exact Hadded].
      * simpl in Hlive. rewrite andb_true_r in Hlive. apply negb_false_iff in Hlive.
        rewrite Hlive. exists []. rewrite app_nil_r. split; [reflexivity|constructor].
Qed.

(** X13. Every transcription either command asks for, in single-file and
    in batch mode, is asked with the same options: the model 'whisper-1',
    the [debug] flag of the config, a storage rooted at [outputDirectory]
    (at 'output' when that is not set), and an archive directory 'kodrdriv'
    joined under that directory. *)
Theorem transcriptions_share_their_options
  (cmd : Command) (w : World) (runConfig : Config) (t : Trace) :
  exists added,
    snd (run cmd w runConfig t) = t ++ added /\
    forall audioFilePath options,
      In (EvTranscribeAudio audioFilePath options) added ->
      tr_model options = "whisper-1" /\
      tr_debug options = debug runConfig /\
      tr_storageDirectory options
        = match outputDirectory runConfig with
          | Some directory => if String.eqb directory "" then "output" else directory
          | None => "output"
          end /\
      tr_archiveDirectory options = path_join w [tr_storageDirectory options; "kodrdriv"].
Proof.
  destruct (run_transcribesWith cmd w runConfig t) as (added & Hsnd & Hadded).
  exists added. split; [exact Hsnd|].
  intros audioFilePath options Hin. rewrite List.Forall_forall in Hadded.
  specialize (Hadded _ Hin). simpl in Hadded. subst options.
  unfold transcribeOptions, Js.orElse, Js.nonEmpty. simpl.
  repeat split. destruct (outputDirectory runConfig) as [directory|]; [|reflexivity].
  destruct (String.eqb directory ""); reflexivity.
Qed.
